(** * check_standby_relocation_t1: audit and remediation of
      [enable_standby_relocation] on NSX-T Tier-1 gateways

    Shallow embedding of [check_standby_relocation_t1_2.1.py].

    - JSON payloads are a tagged union; a Python [dict] is an association
      list in insertion order (what [json.dump] and the request body
      serialise in), read with [dict_get] and written with [dict_set].
    - The selector's lookup table [t1_map] and [os.environ] are finite maps
      ([gmap string _]).
    - Effects are threaded through an explicit [world]: the process
      environment, the lines the operator will type, the replies the NSX
      manager will give, the clock, the directories that exist, and the log
      of everything the program did (prints, prompts, HTTP requests, files
      written), most recent first.
    - Python exceptions are the [Raise] results of a state-and-error monad.

    - Text is a string of bytes, the UTF-8 form of a Python [str]: two
      texts are equal, or empty, or split at the same commas, exactly when
      their byte strings are. [str.lower] and [str.strip] are parameters of
      the development: [lower] and [strip] stand for them, and nothing is
      assumed about what they compute, so every statement holds of the
      functions Python has. [ascii_lower] and [ascii_strip] are the
      instance at which the statements are run on sample data.

    Limits of the model, stated once: JSON numbers are integers;
    file-system calls do not fail; the text of the printed lines and of the
    URLs is kept structured (who was printed, not how it was padded). *)

From Stdlib Require Import ZArith Ascii String List Bool Lia.
From stdpp Require Import base option list gmap strings.
Import ListNotations.
Set Default Proof Using "Type".
Local Open Scope string_scope.
Local Open Scope list_scope.
Local Open Scope Z_scope.

(* ===================================================================== *)
(** ** JSON values and the Python operations the program applies to them *)
(* ===================================================================== *)

#[local] Set Warnings "-register-all".

Inductive json : Type :=
| JNull
| JBool (b : bool)
| JInt (z : Z)
| JStr (s : string)
| JArr (items : list json)
| JObj (fields : list (string * json)).

(** A gateway record is a JSON object: its fields in insertion order. *)
Definition dict : Type := list (string * json).

(** [d.get(k)] on the fields of a dict: the first binding of [k]. *)
Fixpoint dict_get (k : string) (d : dict) : option json :=
  match d with
  | [] => None
  | (k', v) :: d' => if String.eqb k k' then Some v else dict_get k d'
  end.

(** [d[k] = v]: overwrite in place when the key exists (it keeps its
    position), append at the end otherwise. *)
Fixpoint dict_set (k : string) (v : json) (d : dict) : dict :=
  match d with
  | [] => [(k, v)]
  | (k', v') :: d' =>
      if String.eqb k k' then (k', v) :: d' else (k', v') :: dict_set k v d'
  end.

Definition dict_keys (d : dict) : list string := map fst d.

(** Python truthiness ([if x:], [not x]) of a JSON value. *)
Definition truthy (x : json) : bool :=
  match x with
  | JNull => false
  | JBool b => b
  | JInt z => negb (z =? 0)
  | JStr s => negb (String.eqb s "")
  | JArr l => match l with [] => false | _ => true end
  | JObj d => match d with [] => false | _ => true end
  end.

(** Python [==] on JSON values: [True == 1], lists compare pointwise,
    dicts compare as maps (the order of the keys does not count). *)
Fixpoint py_eq (x y : json) {struct x} : bool :=
  match x, y with
  | JNull, JNull => true
  | JBool a, JBool b => Bool.eqb a b
  | JBool a, JInt z => (if a then 1 else 0) =? z
  | JInt z, JBool a => z =? (if a then 1 else 0)
  | JInt a, JInt b => a =? b
  | JStr a, JStr b => String.eqb a b
  | JArr a, JArr b =>
      (fix items (a b : list json) {struct a} : bool :=
         match a, b with
         | [], [] => true
         | x' :: a', y' :: b' => py_eq x' y' && items a' b'
         | _, _ => false
         end) a b
  | JObj a, JObj b =>
      (length a =? length b)%nat &&
      (fix fields (a : dict) {struct a} : bool :=
         match a with
         | [] => true
         | (k, v) :: a' =>
             match dict_get k b with
             | Some v' => py_eq v v'
             | None => false
             end && fields a'
         end) a
  | _, _ => false
  end.

(** [x in l] for a list [l]: some element compares equal to [x]. *)
Definition py_in (x : json) (l : list json) : bool :=
  existsb (fun e => py_eq x e) l.

(* ===================================================================== *)
(** ** Strings: [str.split(',')], and [str.lower], [str.strip] on ASCII *)
(* ===================================================================== *)

Definition lower_ascii (c : ascii) : ascii :=
  let n := nat_of_ascii c in
  if (65 <=? n)%nat && (n <=? 90)%nat then ascii_of_nat (n + 32) else c.

(** [str.lower] on ASCII text; other bytes are left as they are. *)
Fixpoint ascii_lower (s : string) : string :=
  match s with
  | EmptyString => EmptyString
  | String c s' => String (lower_ascii c) (ascii_lower s')
  end.

(** The ASCII characters [str.isspace] accepts: TAB, LF, VT, FF, CR, the
    four separators 28..31 and the space. *)
Definition is_space (c : ascii) : bool :=
  let n := nat_of_ascii c in
  ((9 <=? n)%nat && (n <=? 13)%nat) || ((28 <=? n)%nat && (n <=? 32)%nat).

Fixpoint lstrip (s : string) : string :=
  match s with
  | EmptyString => EmptyString
  | String c s' => if is_space c then lstrip s' else s
  end.

Fixpoint rstrip (s : string) : string :=
  match s with
  | EmptyString => EmptyString
  | String c s' =>
      match rstrip s' with
      | EmptyString => if is_space c then EmptyString else String c EmptyString
      | r => String c r
      end
  end.

(** [str.strip] on text whose blanks are ASCII. *)
Definition ascii_strip (s : string) : string := rstrip (lstrip s).

(** [s.split(',')]: never empty, [''.split(',') == ['']]. *)
Fixpoint split_comma (s : string) : list string :=
  match s with
  | EmptyString => [EmptyString]
  | String c s' =>
      if Ascii.eqb c ","%char then EmptyString :: split_comma s'
      else match split_comma s' with
           | [] => [String c EmptyString]
           | t :: ts => String c t :: ts
           end
  end.

Definition str_in (s : string) (l : list string) : bool :=
  existsb (String.eqb s) l.

(* ===================================================================== *)
(** ** The world the program runs in *)
(* ===================================================================== *)

(** The two endpoint shapes; the gateway id is kept as the value that the
    f-string formats into the path. *)
Inductive url : Type :=
| UrlTier1s (base_url : string)
| UrlTier1 (base_url : string) (t1_id : json).

Inductive request : Type :=
| HttpGet (u : url) (params : dict)
| HttpPut (u : url) (body : json).

(** What the manager answers to one request: nothing (the connection
    fails), or a status line and a body, [None] when the body is not JSON. *)
Inductive reply : Type :=
| ConnErr
| Resp (status : Z) (body : option json).

(** [backups/T1_<id>_<timestamp>.json], kept as its three parts. *)
Record backup_path : Type := BackupPath {
  bp_dir : string;
  bp_id : json;
  bp_stamp : string;
}.

Inductive exn : Type :=
| HTTPError (status : Z)
| ConnectionError
| JSONDecodeError
| AttributeError
| TypeError
| KeyError
| EOFError.

Inductive prompt : Type :=
| PromptManager                 (* line 23 *)
| PromptUsername                (* line 26 *)
| PromptPassword                (* line 29, getpass *)
| PromptSelect                  (* line 215 *)
| PromptConfirm (n : nat).      (* line 290, n = len(selected_t1s) *)

(** One constructor per print site (consecutive unconditional prints of
    fixed text are one message). *)
Inductive message : Type :=
| MsgDirCreated (dir : string)                     (* 96 *)
| MsgBackupSaved (p : backup_path)                 (* 106 *)
| MsgGet (t1_id : json)                            (* 118 *)
| MsgPut (t1_id : json)                            (* 129 *)
| MsgUpdated (t1_id : json) (v : bool)             (* 133 *)
| MsgReport (total act ok ko : nat)                (* 166-171 *)
| MsgDetailHeader                                  (* 174-175 *)
| MsgDetail (name t1_id ha_mode flag : json)       (* 179-184 *)
| MsgDetailFooter (n : nat)                        (* 185-186 *)
| MsgAllCompliant                                  (* 188 *)
| MsgSelectMenu                                    (* 197-203 *)
| MsgNotFound (names : list string)                (* 240-242 *)
| MsgNoValidSelection                              (* 245-246 *)
| MsgConnected (nsx_manager : string)              (* 264-265 *)
| MsgNothingToDo                                   (* 278 *)
| MsgNoneSelected                                  (* 285 *)
| MsgConfirmBanner                                 (* 289 *)
| MsgAborted                                       (* 294 *)
| MsgProceeding                                    (* 298-299 *)
| MsgHttpError (t1_id : json) (status : Z)         (* 312 *)
| MsgGenericError (t1_id : json) (e : exn)         (* 315 *)
| MsgSummary (ok ko backups : nat).                (* 317-324 *)

Inductive event : Type :=
| EvPrint (m : message)
| EvInput (p : prompt) (line : option string)  (* [None]: end of input *)
| EvHttp (r : request)
| EvMkdir (dir : string)
| EvWrite (p : backup_path) (content : json).

Record world : Type := World {
  w_environ : gmap string string;   (* os.environ *)
  w_stdin : list string;            (* lines the operator will type *)
  w_net : list reply;               (* replies the manager will give; once
                                       they run out it is unreachable *)
  w_now : nat -> string;            (* strftime of the n-th clock reading *)
  w_ticks : nat;                    (* clock readings so far *)
  w_dirs : gset string;             (* directories that exist *)
  w_log : list event;               (* what happened, most recent first *)
}.

Definition set_stdin (l : list string) (w : world) : world :=
  World (w_environ w) l (w_net w) (w_now w) (w_ticks w) (w_dirs w) (w_log w).
Definition set_net (l : list reply) (w : world) : world :=
  World (w_environ w) (w_stdin w) l (w_now w) (w_ticks w) (w_dirs w) (w_log w).
Definition set_ticks (n : nat) (w : world) : world :=
  World (w_environ w) (w_stdin w) (w_net w) (w_now w) n (w_dirs w) (w_log w).
Definition set_dirs (d : gset string) (w : world) : world :=
  World (w_environ w) (w_stdin w) (w_net w) (w_now w) (w_ticks w) d (w_log w).
Definition set_environ (env : gmap string string) (w : world) : world :=
  World env (w_stdin w) (w_net w) (w_now w) (w_ticks w) (w_dirs w) (w_log w).
Definition log (e : event) (w : world) : world :=
  World (w_environ w) (w_stdin w) (w_net w) (w_now w) (w_ticks w) (w_dirs w)
        (e :: w_log w).

(** The run in the order it happened. *)
Definition trace (w : world) : list event := rev (w_log w).

(* ===================================================================== *)
(** ** The state-and-exception monad *)
(* ===================================================================== *)

Inductive result (A : Type) : Type :=
| Ok (a : A)
| Raise (e : exn).
Arguments Ok {A} a.
Arguments Raise {A} e.

Definition M (A : Type) : Type := world -> result A * world.

Definition ret {A} (a : A) : M A := fun w => (Ok a, w).
Definition raise {A} (e : exn) : M A := fun w => (Raise e, w).
Definition bind {A B} (m : M A) (k : A -> M B) : M B :=
  fun w => match m w with
           | (Ok a, w') => k a w'
           | (Raise e, w') => (Raise e, w')
           end.
Definition lift {A} (r : result A) : M A := fun w => (r, w).

(** [try: m except Exception as e: h e]. *)
Definition try_except {A} (m : M A) (h : exn -> M A) : M A :=
  fun w => match m w with
           | (Ok a, w') => (Ok a, w')
           | (Raise e, w') => h e w'
           end.

Declare Scope m_scope.
Delimit Scope m_scope with M.
Notation "'let!' x ':=' m 'in' k" := (bind m (fun x => k))
  (at level 10, x pattern, m at level 100, k at level 200) : m_scope.
Notation "m '>>' k" := (bind m (fun _ => k))
  (at level 100, k at level 200, right associativity) : m_scope.
Local Open Scope m_scope.

(** *** Primitive effects *)

Definition print (m : message) : M unit :=
  fun w => (Ok tt, log (EvPrint m) w).

(** [input(prompt)] and [getpass(prompt)]: the next line the operator
    types, without its newline; [EOFError] when there is none. *)
Definition input (p : prompt) : M string :=
  fun w => match w_stdin w with
           | [] => (Raise EOFError, log (EvInput p None) w)
           | l :: ls => (Ok l, log (EvInput p (Some l)) (set_stdin ls w))
           end.

Definition environ_get (k : string) : M (option string) :=
  fun w => (Ok (w_environ w !! k), w).

(** [session.get] / [session.put]: the request goes out, the next reply
    comes back. *)
Definition send (r : request) : M (Z * option json) :=
  fun w => match w_net w with
           | [] => (Raise ConnectionError, log (EvHttp r) w)
           | ConnErr :: rs => (Raise ConnectionError, log (EvHttp r) (set_net rs w))
           | Resp st body :: rs => (Ok (st, body), log (EvHttp r) (set_net rs w))
           end.

(** [resp.raise_for_status()] of the requests library: [HTTPError] for the
    client (4xx) and server (5xx) error classes, nothing otherwise. *)
Definition is_error_status (st : Z) : bool := (400 <=? st) && (st <? 600).

Definition raise_for_status (resp : Z * option json) : M unit :=
  if is_error_status (fst resp) then raise (HTTPError (fst resp)) else ret tt.

(** [resp.json()] *)
Definition resp_json (resp : Z * option json) : M json :=
  match snd resp with
  | Some v => ret v
  | None => raise JSONDecodeError
  end.

(** [datetime.now().strftime("%Y%m%d_%H%M%S")] *)
Definition now_stamp : M string :=
  fun w => (Ok (w_now w (w_ticks w)), set_ticks (S (w_ticks w)) w).

Definition path_exists (d : string) : M bool :=
  fun w => (Ok (bool_decide (d ∈ w_dirs w)), w).

Definition makedirs (d : string) : M unit :=
  fun w => (Ok tt, log (EvMkdir d) (set_dirs ({[d]} ∪ w_dirs w) w)).

(** [with open(filepath, 'w') as f: json.dump(t1_config, f, ...)]: the file
    holds the value as it is at this moment. *)
Definition write_json (p : backup_path) (content : json) : M unit :=
  fun w => (Ok tt, log (EvWrite p content) w).

(** *** Python operations that can raise *)

(** [x.get(k, default)] *)
Definition py_get (x : json) (k : string) (dflt : json) : M json :=
  match x with
  | JObj d => ret (default dflt (dict_get k d))
  | _ => raise AttributeError
  end.

(** [x[k]] *)
Definition py_index (x : json) (k : string) : M json :=
  match x with
  | JObj d => match dict_get k d with
              | Some v => ret v
              | None => raise KeyError
              end
  | _ => raise TypeError
  end.

(** [x[k] = v] *)
Definition py_setitem (x : json) (k : string) (v : json) : M json :=
  match x with
  | JObj d => ret (JObj (dict_set k v d))
  | _ => raise TypeError
  end.

(** The characters of a text. In UTF-8 a character is one byte that is not
    a continuation byte ([10xxxxxx]) followed by its continuation bytes. *)
Definition is_continuation (c : ascii) : bool :=
  (128 <=? nat_of_ascii c)%nat && (nat_of_ascii c <? 192)%nat.

Definition continues (s : string) : bool :=
  match s with
  | String c _ => is_continuation c
  | EmptyString => false
  end.

Definition join_char (c : ascii) (continued : bool) (l : list json)
    : list json :=
  match continued, l with
  | true, JStr g :: l' => JStr (String c g) :: l'
  | _, _ => JStr (String c EmptyString) :: l
  end.

Fixpoint chars (s : string) : list json :=
  match s with
  | EmptyString => []
  | String c s' => join_char c (continues s') (chars s')
  end.

(** The items [results.extend(x)] appends: the elements of a list, the
    characters of a string, the keys of a dict. *)
Definition iter_items (x : json) : option (list json) :=
  match x with
  | JArr l => Some l
  | JStr s => Some (chars s)
  | JObj d => Some (map JStr (dict_keys d))
  | _ => None
  end.

Definition py_iter (x : json) : M (list json) :=
  match iter_items x with
  | Some l => ret l
  | None => raise TypeError
  end.

(** [f"{x:30}"]: a width is accepted by [str], [int] and [bool] only. *)
Definition py_format_width (x : json) : M unit :=
  match x with
  | JStr _ | JInt _ | JBool _ => ret tt
  | _ => raise TypeError
  end.

(* ===================================================================== *)
(** ** The parameters: [str.lower] and [str.strip] *)
(* ===================================================================== *)

Section Program.

(** [s.lower()] and [s.strip()] of a Python text [s]. *)
Variable lower : string -> string.
Variable strip : string -> string.

(** [x.lower()] *)
Definition py_lower (x : json) : M string :=
  match x with
  | JStr s => ret (lower s)
  | _ => raise AttributeError
  end.

(* ===================================================================== *)
(** ** The program *)
(* ===================================================================== *)

(** *** get_config_from_env_or_prompt (lines 13-31) *)

(** [if not v: v = <ask>]: [None] and [''] are both falsy. *)
Definition unless_set (v : option string) (ask : M string) : M string :=
  match v with
  | Some s => if String.eqb s "" then ask else ret s
  | None => ask
  end.

Definition get_config_from_env_or_prompt : M (string * string * string) :=
  let! nsx_manager := environ_get "NSX_MANAGER" in
  let! username := environ_get "NSX_USERNAME" in
  let! password := environ_get "NSX_PASSWORD" in
  let! nsx_manager :=
    unless_set nsx_manager (let! l := input PromptManager in ret (strip l)) in
  let! username :=
    unless_set username (let! l := input PromptUsername in ret (strip l)) in
  let! password := unless_set password (input PromptPassword) in
  ret (nsx_manager, username, password).

(** *** create_session (lines 34-49) *)

Record session : Type := Session {
  s_verify : bool;
  s_auth : string * string;
  s_headers : list (string * string);
}.

Definition create_session (nsx_manager username password : string)
    (verify : bool) : session * string :=
  (Session verify (username, password)
     [("Content-Type", "application/json");
      ("Accept", "application/json");
      ("X-Allow-Overwrite", "true")],
   String.append "https://" nsx_manager).

(** *** list_tier1_gateways (lines 52-75) *)

(** The [while True] loop. Every turn takes one reply off [w_net], so the
    number of replies left bounds the number of turns; the branch for no
    fuel is never taken (lemma [list_pages_fuel]). *)
Fixpoint list_pages (fuel : nat) (s : session) (u : url)
    (cursor : json) (results : list json) : M (list json) :=
  let params := if truthy cursor then [("cursor", cursor)] else [] in
  let! resp := send (HttpGet u params) in
  raise_for_status resp >>
  let! data := resp_json resp in
  let! page := py_get data "results" (JArr []) in
  let! items := py_iter page in
  let results := results ++ items in
  let! cursor := py_get data "cursor" JNull in
  if truthy cursor then
    match fuel with
    | O => raise ConnectionError
    | S fuel' => list_pages fuel' s u cursor results
    end
  else ret results.

Definition list_tier1_gateways (s : session) (base_url : string)
    : M (list json) :=
  fun w => list_pages (length (w_net w)) s (UrlTier1s base_url) JNull [] w.

(** *** get_t1_full_config (lines 78-86) *)

Definition get_t1_full_config (s : session) (base_url : string)
    (t1_id : json) : M json :=
  let! resp := send (HttpGet (UrlTier1 base_url t1_id) []) in
  raise_for_status resp >>
  resp_json resp.

(** *** save_t1_backup (lines 89-107) *)

Definition save_t1_backup (t1_config : json) (backup_dir : string)
    : M backup_path :=
  let! there := path_exists backup_dir in
  (if there then ret tt
   else makedirs backup_dir >> print (MsgDirCreated backup_dir)) >>
  let! t1_id := py_get t1_config "id" (JStr "unknown") in
  let! timestamp := now_stamp in
  let filepath := BackupPath backup_dir t1_id timestamp in
  write_json filepath t1_config >>
  print (MsgBackupSaved filepath) >>
  ret filepath.

(** *** update_t1_relocation (lines 110-134) *)

Definition FLAG : string := "enable_standby_relocation".

Definition update_t1_relocation (s : session) (base_url : string)
    (t1_id : json) (enable_standby_relocation : bool) (backup_dir : string)
    : M ((Z * option json) * backup_path) :=
  print (MsgGet t1_id) >>
  let! t1_config := get_t1_full_config s base_url t1_id in
  let! backup_file := save_t1_backup t1_config backup_dir in
  let! t1_config :=
    py_setitem t1_config FLAG (JBool enable_standby_relocation) in
  print (MsgPut t1_id) >>
  let! r := send (HttpPut (UrlTier1 base_url t1_id) t1_config) in
  raise_for_status r >>
  print (MsgUpdated t1_id enable_standby_relocation) >>
  ret (r, backup_file).

(** *** classify_t1s (lines 137-159) *)

Definition buckets : Type := list json * list json * list json.

Fixpoint classify_loop (t1_list : list json) (acc : buckets) : M buckets :=
  match t1_list with
  | [] => ret acc
  | t1 :: rest =>
      let '(active_standby_all, compliant, non_compliant) := acc in
      let! ha_mode := py_get t1 "ha_mode" JNull in
      if py_eq ha_mode (JStr "ACTIVE_STANDBY") then
        let! standby := py_get t1 FLAG (JBool false) in
        if truthy standby then
          classify_loop rest
            (active_standby_all ++ [t1], compliant ++ [t1], non_compliant)
        else
          classify_loop rest
            (active_standby_all ++ [t1], compliant, non_compliant ++ [t1])
      else classify_loop rest acc
  end.

Definition classify_t1s (t1_list : list json) : M buckets :=
  classify_loop t1_list ([], [], []).

(** *** print_report (lines 162-188) *)

Fixpoint print_details (non_compliant : list json) : M unit :=
  match non_compliant with
  | [] => ret tt
  | t1 :: rest =>
      let! display_name := py_get t1 "display_name" (JStr "") in
      let! t1_id := py_get t1 "id" JNull in
      py_format_width display_name >>
      py_format_width t1_id >>
      let! ha_mode := py_get t1 "ha_mode" JNull in
      let! flag := py_get t1 FLAG (JBool false) in
      print (MsgDetail display_name t1_id ha_mode flag) >>
      print_details rest
  end.

Definition print_report (t1_list active_standby_all compliant
    non_compliant : list json) : M unit :=
  print (MsgReport (length t1_list) (length active_standby_all)
           (length compliant) (length non_compliant)) >>
  match non_compliant with
  | [] => print MsgAllCompliant
  | _ =>
      print MsgDetailHeader >>
      print_details non_compliant >>
      print (MsgDetailFooter (length non_compliant))
  end.

(** *** select_t1s_to_modify (lines 191-254) *)

(** Lines 206-212: the lookup table. *)
Fixpoint build_t1_map (non_compliant : list json)
    (t1_map : gmap string json) : M (gmap string json) :=
  match non_compliant with
  | [] => ret t1_map
  | t1 :: rest =>
      let! dn := py_get t1 "display_name" (JStr "") in
      let! display_name := py_lower dn in
      let! i := py_get t1 "id" (JStr "") in
      let! t1_id := py_lower i in
      let t1_map :=
        if String.eqb display_name "" then t1_map
        else <[display_name := t1]> t1_map in
      build_t1_map rest (<[t1_id := t1]> t1_map)
  end.

(** Lines 228-237: the tokens of one answer. *)
Fixpoint pick (t1_map : gmap string json) (names : list string)
    (selected_t1s : list json) (not_found : list string)
    : list json * list string :=
  match names with
  | [] => (selected_t1s, not_found)
  | name_input :: rest =>
      let name_lower := lower name_input in
      match t1_map !! name_lower with
      | Some t1 =>
          if py_in t1 selected_t1s then pick t1_map rest selected_t1s not_found
          else pick t1_map rest (selected_t1s ++ [t1]) not_found
      | None => pick t1_map rest selected_t1s (not_found ++ [name_input])
      end
  end.

Definition CANCEL : list string := ["exit"; "q"; "quit"; "cancel"].
Definition ALL : list string := ["all"; "a"; "*"].

(** Lines 214-254: the [while True] loop. Every turn reads one line, so the
    lines left bound the turns (lemma [select_loop_fuel]). Nothing between
    [try] and [except] can raise on strings and JSON values, so the handler
    of line 252 has no counterpart here. *)
Fixpoint select_loop (fuel : nat) (non_compliant : list json)
    (t1_map : gmap string json) : M (list json) :=
  let! line := input PromptSelect in
  let selection := strip line in
  if str_in (lower selection) CANCEL then ret []
  else if str_in (lower selection) ALL then ret non_compliant
  else
    let names := map strip (split_comma selection) in
    let '(selected_t1s, not_found) := pick t1_map names [] [] in
    (match not_found with
     | [] => ret tt
     | _ => print (MsgNotFound not_found)
     end) >>
    match selected_t1s with
    | [] =>
        print MsgNoValidSelection >>
        match fuel with
        | O => raise EOFError
        | S fuel' => select_loop fuel' non_compliant t1_map
        end
    | _ => ret selected_t1s
    end.

Definition select_t1s_to_modify (non_compliant : list json)
    : M (list json) :=
  print MsgSelectMenu >>
  let! t1_map := build_t1_map non_compliant ∅ in
  fun w => select_loop (length (w_stdin w)) non_compliant t1_map w.

(** *** main (lines 257-324) *)

Definition tally : Type := nat * nat * list backup_path.

(** Lines 306-315: one turn of the remediation loop. *)
Definition remediate_one (s : session) (base_url : string) (t1 : json)
    (acc : tally) : M tally :=
  let '(success_count, error_count, backup_files) := acc in
  try_except
    (let! t1_id := py_index t1 "id" in
     let! rb := update_t1_relocation s base_url t1_id true "backups" in
     ret (S success_count, error_count, backup_files ++ [snd rb]))
    (fun e =>
       let! t1_id := py_get t1 "id" JNull in
       match e with
       | HTTPError st => print (MsgHttpError t1_id st)
       | _ => print (MsgGenericError t1_id e)
       end >>
       ret (success_count, S error_count, backup_files)).

(** Lines 301-315: the remediation loop over the selection. *)
Fixpoint remediate_selected (s : session) (base_url : string)
    (selected_t1s : list json) (acc : tally) : M tally :=
  match selected_t1s with
  | [] => ret acc
  | t1 :: rest =>
      let! acc := remediate_one s base_url t1 acc in
      remediate_selected s base_url rest acc
  end.

Definition YES : list string := ["y"; "yes"; "s"; "si"; "sì"].

Definition main : M unit :=
  let! cfg := get_config_from_env_or_prompt in
  let '(nsx_manager, username, password) := cfg in
  let '(s, base_url) := create_session nsx_manager username password false in
  print (MsgConnected nsx_manager) >>
  let! t1_list := list_tier1_gateways s base_url in
  let! b := classify_t1s t1_list in
  let '(active_standby_all, compliant, non_compliant) := b in
  print_report t1_list active_standby_all compliant non_compliant >>
  match non_compliant with
  | [] => print MsgNothingToDo
  | _ =>
      let! selected_t1s := select_t1s_to_modify non_compliant in
      match selected_t1s with
      | [] => print MsgNoneSelected
      | _ =>
          print MsgConfirmBanner >>
          let! answer := input (PromptConfirm (length selected_t1s)) in
          let answer := lower (strip answer) in
          if str_in answer YES then
            print MsgProceeding >>
            let! t := remediate_selected s base_url selected_t1s (O, O, []) in
            let '(success_count, error_count, backup_files) := t in
            print (MsgSummary success_count error_count (length backup_files))
          else print MsgAborted
      end
  end.

(* ===================================================================== *)
(** ** Vocabulary of the statements *)
(* ===================================================================== *)

(** The two tests of lines 151 and 154, on the fields of a gateway. *)
Definition is_as (d : dict) : bool :=
  py_eq (default JNull (dict_get "ha_mode" d)) (JStr "ACTIVE_STANDBY").
Definition is_on (d : dict) : bool :=
  truthy (default (JBool false) (dict_get FLAG d)).

Definition select_dicts (p : dict -> bool) (gs : list dict) : list json :=
  map JObj (List.filter p gs).


(** What kind of thing an event is, as far as the properties below care. *)
Inductive kind : Type :=
| KPrint      (* a line on the console *)
| KAsk        (* a configuration prompt *)
| KSelect     (* the selection prompt *)
| KConfirm    (* the final confirmation prompt *)
| KGet        (* a GET request *)
| KPut        (* a PUT request *)
| KFile.      (* a directory created or a file written *)

Definition kind_of (e : event) : kind :=
  match e with
  | EvPrint _ => KPrint
  | EvInput (PromptManager | PromptUsername | PromptPassword) _ => KAsk
  | EvInput PromptSelect _ => KSelect
  | EvInput (PromptConfirm _) _ => KConfirm
  | EvHttp (HttpGet _ _) => KGet
  | EvHttp (HttpPut _ _) => KPut
  | EvMkdir _ | EvWrite _ _ => KFile
  end.

Definition kind_eqb (a b : kind) : bool :=
  match a, b with
  | KPrint, KPrint | KAsk, KAsk | KSelect, KSelect | KConfirm, KConfirm
  | KGet, KGet | KPut, KPut | KFile, KFile => true
  | _, _ => false
  end.

Definition of_kinds (ks : list kind) (e : event) : Prop :=
  existsb (kind_eqb (kind_of e)) ks = true.

(** [m] only ever adds to the log, and only events of the kinds [ks]. *)
Definition footprint (ks : list kind) {A} (m : M A) : Prop :=
  forall w, exists new,
    w_log (snd (m w)) = new ++ w_log w /\ Forall (of_kinds ks) new.

(** A selection line that is not one of the cancellation words. *)
Definition quiet_select (e : event) : Prop :=
  match e with
  | EvInput PromptSelect (Some l) => str_in (lower (strip l)) CANCEL = false
  | _ => True
  end.

(** What [main] may do before the confirmation is answered, and after. *)
Definition before_confirm (e : event) : Prop :=
  of_kinds [KPrint; KAsk; KGet; KSelect] e /\ quiet_select e.
Definition after_confirm (e : event) : Prop :=
  of_kinds [KPrint; KGet; KPut; KFile] e.
Definition without_put (e : event) : Prop :=
  of_kinds [KPrint; KAsk; KGet; KSelect; KConfirm] e.

(** The events a run added: either no PUT at all, or a confirmation
    answered with yes for a selection of [n > 0] gateways, with every PUT
    after it (the log is most recent first). *)
Definition guarded (new : list event) : Prop :=
  Forall without_put new \/
  exists post n ans pre,
    new = post ++ EvInput (PromptConfirm n) (Some ans) :: pre /\
    Forall after_confirm post /\ Forall before_confirm pre /\
    (0 < n)%nat /\ str_in (lower (strip ans)) YES = true.

Definition runs_guarded {A} (m : M A) : Prop :=
  forall w, exists new, w_log (snd (m w)) = new ++ w_log w /\ guarded new.

(** The same world with an empty log: the start of a run. *)
Definition fresh (w : world) : world :=
  World (w_environ w) (w_stdin w) (w_net w) (w_now w) (w_ticks w) (w_dirs w)
        [].

(** What one reply to the listing request amounts to: the items of the
    page and the cursor it carries ([JNull] when it carries none), or
    nothing when the turn raises. *)
Definition page_view (r : reply) : option (list json * json) :=
  match r with
  | Resp st (Some (JObj d)) =>
      if is_error_status st then None
      else match iter_items (default (JArr []) (dict_get "results" d)) with
           | Some items => Some (items, default JNull (dict_get "cursor" d))
           | None => None
           end
  | _ => None
  end.

(** The exception of a turn that raises. *)
Definition page_error (r : reply) : exn :=
  match r with
  | ConnErr => ConnectionError
  | Resp st body =>
      if is_error_status st then HTTPError st
      else match body with
           | None => JSONDecodeError
           | Some (JObj _) => TypeError
           | Some _ => AttributeError
           end
  end.

(** The listing request that carries cursor [c]. *)
Definition list_request (u : url) (c : json) : request :=
  HttpGet u (if truthy c then [("cursor", c)] else []).




(** Pairwise different under Python's [==], each element against the ones
    before it. *)
Definition distinct (l : list json) : Prop :=
  forall (i j : nat) (x y : json),
    (i < j)%nat -> l !! i = Some x -> l !! j = Some y -> py_eq y x = false.

(** The tokens of a selection line (line 226). *)
Definition tokens (line : string) : list string :=
  map strip (split_comma (strip line)).

(** What became of each selected gateway in a run of the loop that starts
    in world [w] with the counters [acc]: the backup path its update
    returned, or nothing when it has no id or its update raised. Each update
    is looked at in the world the loop had reached by then. *)
Fixpoint outcomes (s : session) (base_url : string) (ds : list dict)
    (acc : tally) (w : world) : list (option backup_path) :=
  match ds with
  | [] => []
  | d :: rest =>
      match dict_get "id" d with
      | Some t1_id =>
          match fst (update_t1_relocation s base_url t1_id true "backups" w)
          with
          | Ok rb => Some (snd rb)
          | Raise _ => None
          end
      | None => None
      end
      :: match remediate_one s base_url (JObj d) acc w with
         | (Ok acc', w') => outcomes s base_url rest acc' w'
         | (Raise _, _) => []
         end
  end.

Definition failed (o : option backup_path) : bool :=
  match o with None => true | Some _ => false end.

(** The GET requests of a trace, in order. *)
Definition get_requests (t : list event) : list request :=
  omap (fun e => match e with
                 | EvHttp (HttpGet u ps) => Some (HttpGet u ps)
                 | _ => None
                 end) t.






(** Lines 22-31, once the three variables have been read. *)
Definition config_with (m u p : option string)
    : M (string * string * string) :=
  let! nsx_manager :=
    unless_set m (let! l := input PromptManager in ret (strip l)) in
  let! username :=
    unless_set u (let! l := input PromptUsername in ret (strip l)) in
  let! password := unless_set p (input PromptPassword) in
  ret (nsx_manager, username, password).

(** The GET of a gateway fails on this script: nobody answers, or the
    answer is an error status, or its body is not JSON. *)
Definition get_fails (script : list reply) : bool :=
  match script with
  | [] | ConnErr :: _ => true
  | Resp st body :: _ =>
      is_error_status st || match body with None => true | Some _ => false end
  end.

Definition is_obj (x : json) : bool :=
  match x with JObj _ => true | _ => false end.

(** A gateway whose line of the detail table can be formatted: the display
    name (or its default, the empty string) and the id take a width. *)
Definition takes_width (x : json) : bool :=
  match x with JStr _ | JInt _ | JBool _ => true | _ => false end.
Definition printable (d : dict) : bool :=
  takes_width (default (JStr "") (dict_get "display_name" d)) &&
  takes_width (default JNull (dict_get "id" d)).

(** The line of the detail table for a gateway (lines 177-184). *)
Definition detail_line (d : dict) : event :=
  EvPrint (MsgDetail (default (JStr "") (dict_get "display_name" d))
                     (default JNull (dict_get "id" d))
                     (default JNull (dict_get "ha_mode" d))
                     (default (JBool false) (dict_get FLAG d))).

(** A configuration variable that is absent or empty. *)
Definition blank (o : option string) : bool :=
  match o with
  | Some s => String.eqb s ""
  | None => true
  end.


(** The prompts of a trace, in order. *)
Definition prompts_of (t : list event) : list prompt :=
  omap (fun e => match e with EvInput p _ => Some p | _ => None end) t.

(** The prompt for a configuration value, when the variable is blank. *)
Definition asks (o : option string) (p : prompt) : list prompt :=
  if blank o then [p] else [].

(** What the manager will answer to the remediation of one gateway: the
    status and the object of the GET, the status and the body of the PUT. *)
Definition answer : Type := (Z * dict) * (Z * option json).



Definition has_id (d : dict) : bool :=
  match dict_get "id" d with Some _ => true | None => false end.

(** A computation whose run, when it raised, left no PUT, no directory and
    no file behind. *)
Definition settled {A} (m : M A) : Prop :=
  forall w, exists new,
    w_log (snd (m w)) = new ++ w_log w /\
    (Forall without_put new \/ exists a, fst (m w) = Ok a).

(** A selection line the selector does not accept: not a word it knows,
    and none of its tokens is a key of the table. *)
Definition rejected (m : gmap string json) (line : string) : bool :=
  negb (str_in (lower (strip line)) CANCEL) &&
  negb (str_in (lower (strip line)) ALL) &&
  match fst (pick m (tokens line) [] []) with
  | [] => true
  | _ => false
  end.

(* ===================================================================== *)
(** ** Sample data *)
(* ===================================================================== *)

(** An ACTIVE_STANDBY gateway that does not carry the flag at all. *)
Definition gw_plain : dict :=
  [("id", JStr "t1-a"); ("display_name", JStr "gateway-01");
   ("ha_mode", JStr "ACTIVE_STANDBY"); ("tags", JArr [])].

Definition gw_other : dict :=
  [("id", JStr "t1-b"); ("display_name", JStr "gateway-02");
   ("ha_mode", JStr "ACTIVE_ACTIVE")].

Definition gw_on : dict :=
  [("id", JStr "t1-c"); ("display_name", JStr "gateway-03");
   ("ha_mode", JStr "ACTIVE_STANDBY"); (FLAG, JBool true)].

Definition gw_off : dict :=
  [("id", JStr "t1-d"); ("display_name", JStr "Gateway-04");
   ("ha_mode", JStr "ACTIVE_STANDBY"); (FLAG, JBool false);
   ("route_advertisement_types", JArr [JStr "TIER1_CONNECTED"])].

(** A world where nothing is set, typed or answered. *)
Definition world0 : world :=
  World ∅ [] [] (fun _ => "20240101_120000") 0 ∅ [].

(** The manager is set to the empty string, the other two are set. *)
Definition env_blank_manager : gmap string string :=
  {[ "NSX_MANAGER" := ""; "NSX_USERNAME" := "admin";
     "NSX_PASSWORD" := "secret" ]}.

Definition session0 : session := fst (create_session "nsx" "admin" "secret" false).

(** Two pages of a listing: the first carries a cursor, the second none. *)
Definition page_one : json :=
  JObj [("results", JArr [JObj gw_plain; JObj gw_other; JObj gw_on]);
        ("cursor", JStr "0036-c1"); ("result_count", JInt 5)].
Definition page_two : json :=
  JObj [("results", JArr [JObj gw_off; JObj gw_other]);
        ("result_count", JInt 5)].

Definition world_two_pages : world :=
  World ∅ [] [Resp 200 (Some page_one); Resp 200 (Some page_two)]
        (fun _ => "20240101_120000") 0 ∅ [].

(** A reply whose status is neither 2xx nor an error class. *)
Definition world_status_300 : world :=
  World ∅ [] [Resp 300 (Some page_two)] (fun _ => "20240101_120000") 0 ∅ [].

(** The manager answers the GET with [gw_off] and accepts the PUT. *)
Definition world_remediate : world :=
  World ∅ [] [Resp 200 (Some (JObj gw_off)); Resp 200 None]
        (fun _ => "20240101_120000") 0 ∅ [].

(** Two gateways: the display name of the second is the id of the first. *)
Definition gw_edge : dict :=
  [("id", JStr "edge-1"); ("display_name", JStr "alpha");
   ("ha_mode", JStr "ACTIVE_STANDBY")].
Definition gw_alias : dict :=
  [("id", JStr "t1-y"); ("display_name", JStr "Edge-1");
   ("ha_mode", JStr "ACTIVE_STANDBY")].

(** A gateway the manager reports with a number for an id. *)
Definition gw_numeric : dict :=
  [("id", JInt 7); ("display_name", JStr "gateway-07");
   ("ha_mode", JStr "ACTIVE_STANDBY")].

Definition world_typing (lines : list string) : world :=
  World ∅ lines [] (fun _ => "20240101_120000") 0 ∅ [].

(** A whole run: one gateway to fix, selected with [all], confirmed. *)
Definition world_full_run : world :=
  World (<["NSX_MANAGER" := "nsx01"]> env_blank_manager) ["all"; "si"]
    [Resp 200 (Some (JObj [("results", JArr [JObj gw_off])]));
     Resp 200 (Some (JObj gw_off)); Resp 200 None]
    (fun _ => "20240101_120000") 0 ∅ [].
(* ===================================================================== *)
(** ** Basic facts: JSON, dicts, the monad *)
(* ===================================================================== *)

Lemma py_eq_str (x : json) (s : string) :
  py_eq x (JStr s) = true <-> x = JStr s.
Proof.
  destruct x; simpl; try (split; [discriminate | intros [=]]).
  rewrite String.eqb_eq. split; [congruence | intros [=]; done].
Qed.

Lemma dict_get_set_eq (k : string) (v : json) (d : dict) :
  dict_get k (dict_set k v d) = Some v.
Proof.
  induction d as [|[k' v'] d IH]; simpl.
  - by rewrite String.eqb_refl.
  - destruct (String.eqb k k') eqn:E; simpl; rewrite E; [done | apply IH].
Qed.

Lemma dict_get_set_ne (k k' : string) (v : json) (d : dict) :
  k' <> k -> dict_get k' (dict_set k v d) = dict_get k' d.
Proof.
  intros Hne. induction d as [|[k0 v0] d IH]; simpl.
  - destruct (String.eqb k' k) eqn:E; [|done].
    apply String.eqb_eq in E. done.
  - destruct (String.eqb k k0) eqn:E; simpl.
    + apply String.eqb_eq in E. subst k0.
      destruct (String.eqb k' k) eqn:E'; [|done].
      apply String.eqb_eq in E'. done.
    + by rewrite IH.
Qed.

(** Keys keep their order; a new key goes last. *)
Lemma dict_keys_set (k : string) (v : json) (d : dict) :
  dict_keys (dict_set k v d) =
  match dict_get k d with
  | Some _ => dict_keys d
  | None => dict_keys d ++ [k]
  end.
Proof.
  unfold dict_keys. induction d as [|[k' v'] d IH]; simpl; [done|].
  destruct (String.eqb k k') eqn:E; simpl; [done|].
  rewrite IH. by destruct (dict_get k d).
Qed.

Lemma elem_of_rev {A} (x : A) (l : list A) : x ∈ rev l <-> x ∈ l.
Proof. rewrite !list_elem_of_In. symmetry. apply in_rev. Qed.

Lemma bind_ok {A B} (m : M A) (k : A -> M B) (w w' : world) (a : A) :
  m w = (Ok a, w') -> bind m k w = k a w'.
Proof. intros H. unfold bind. by rewrite H. Qed.

Lemma bind_raise {A B} (m : M A) (k : A -> M B) (w w' : world) (e : exn) :
  m w = (Raise e, w') -> bind m k w = (Raise e, w').
Proof. intros H. unfold bind. by rewrite H. Qed.

(** Inversion of a bind that returned. *)
Lemma bind_inv_ok {A B} (m : M A) (k : A -> M B) (w w' : world) (b : B) :
  bind m k w = (Ok b, w') ->
  exists a w1, m w = (Ok a, w1) /\ k a w1 = (Ok b, w').
Proof.
  unfold bind. destruct (m w) as [[a|e] w1]; [eauto | discriminate].
Qed.

(* ===================================================================== *)
(** ** The classifier *)
(* ===================================================================== *)

Lemma is_as_spec (d : dict) :
  is_as d = true <-> dict_get "ha_mode" d = Some (JStr "ACTIVE_STANDBY").
Proof.
  unfold is_as. rewrite py_eq_str.
  destruct (dict_get "ha_mode" d); simpl; split; congruence.
Qed.

Lemma is_on_spec (d : dict) :
  is_on d = true <-> exists v, dict_get FLAG d = Some v /\ truthy v = true.
Proof.
  unfold is_on. destruct (dict_get FLAG d) as [v|]; simpl.
  - split; [eauto | intros (v' & [= <-] & H); done].
  - split; [discriminate | intros (v' & [=] & _)].
Qed.

(** One pass, three filters: what the loop of lines 149-157 computes on
    gateway records, and it touches nothing. *)
Lemma classify_loop_filter (gs : list dict) (a c n : list json) (w : world) :
  classify_loop (map JObj gs) (a, c, n) w =
  (Ok (a ++ select_dicts is_as gs,
       c ++ select_dicts (fun d => is_as d && is_on d) gs,
       n ++ select_dicts (fun d => is_as d && negb (is_on d)) gs), w).
Proof.
  revert a c n. induction gs as [|d gs IH]; intros a c n.
  - simpl. unfold ret, select_dicts. simpl. by rewrite !app_nil_r.
  - simpl. unfold bind at 1. unfold ret at 1. fold (is_as d).
    unfold select_dicts in *. simpl.
    destruct (is_as d) eqn:Ha; simpl.
    + unfold bind at 1. unfold ret at 1. fold (is_on d).
      destruct (is_on d) eqn:Ho; simpl; rewrite IH;
        by rewrite <- !app_assoc.
    + apply IH.
Qed.

Lemma classify_t1s_filter (gs : list dict) (w : world) :
  classify_t1s (map JObj gs) w =
  (Ok (select_dicts is_as gs,
       select_dicts (fun d => is_as d && is_on d) gs,
       select_dicts (fun d => is_as d && negb (is_on d)) gs), w).
Proof. unfold classify_t1s. by rewrite classify_loop_filter. Qed.

Lemma elem_of_select_dicts (p : dict -> bool) (gs : list dict) (x : json) :
  x ∈ select_dicts p gs <-> exists d, x = JObj d /\ d ∈ gs /\ p d = true.
Proof.
  unfold select_dicts. rewrite list_elem_of_fmap. split.
  - intros (d & -> & Hd). apply list_elem_of_In, filter_In in Hd as [Hin Hp].
    exists d. by rewrite list_elem_of_In.
  - intros (d & -> & Hin & Hp). exists d. split; [done|].
    apply list_elem_of_In, filter_In. by rewrite <- list_elem_of_In.
Qed.

Lemma sublist_map {A B} (f : A -> B) (l1 l2 : list A) :
  l1 `sublist_of` l2 -> map f l1 `sublist_of` map f l2.
Proof. induction 1; simpl; by constructor. Qed.

Lemma select_dicts_sublist (p : dict -> bool) (gs : list dict) :
  select_dicts p gs `sublist_of` map JObj gs.
Proof.
  unfold select_dicts. apply sublist_map.
  induction gs as [|d gs IH]; simpl; [constructor|].
  destruct (p d); by constructor.
Qed.

Lemma select_dicts_refine (p q : dict -> bool) (gs : list dict) :
  select_dicts (fun d => p d && q d) gs `sublist_of` select_dicts p gs.
Proof.
  unfold select_dicts. apply sublist_map.
  induction gs as [|d gs IH]; simpl; [constructor|].
  destruct (p d); simpl; [|done]. destruct (q d); by constructor.
Qed.

Lemma select_dicts_split_length (p q : dict -> bool) (gs : list dict) :
  (length (select_dicts (fun d => p d && q d) gs) +
   length (select_dicts (fun d => p d && negb (q d)) gs))%nat =
  length (select_dicts p gs).
Proof.
  unfold select_dicts. rewrite !length_map.
  induction gs as [|d gs IH]; simpl; [done|].
  destruct (p d), (q d); simpl; lia.
Qed.

(* ===================================================================== *)
(** ** The configuration provider *)
(* ===================================================================== *)

Lemma get_config_unfold (w : world) :
  get_config_from_env_or_prompt w =
  config_with (w_environ w !! "NSX_MANAGER") (w_environ w !! "NSX_USERNAME")
              (w_environ w !! "NSX_PASSWORD") w.
Proof. reflexivity. Qed.




(* ===================================================================== *)
(** ** Footprints: which events a computation can add to the log *)
(* ===================================================================== *)

Section Footprint.
Variable ks : list kind.

Lemma fp_silent {A} (m : M A) :
  (forall w, w_log (snd (m w)) = w_log w) -> footprint ks m.
Proof. intros H w. exists []. by rewrite H. Qed.

Lemma fp_ret {A} (a : A) : footprint ks (ret a).
Proof. by apply fp_silent. Qed.

Lemma fp_raise {A} (e : exn) : footprint ks (@raise A e).
Proof. by apply fp_silent. Qed.

Lemma fp_bind {A B} (m : M A) (k : A -> M B) :
  footprint ks m -> (forall a, footprint ks (k a)) -> footprint ks (bind m k).
Proof.
  intros Hm Hk w. unfold bind.
  destruct (Hm w) as (n1 & E1 & F1).
  destruct (m w) as [[a|e] w1]; simpl in *.
  - destruct (Hk a w1) as (n2 & E2 & F2).
    exists (n2 ++ n1). rewrite E2, E1, app_assoc. split; [done|].
    by apply Forall_app.
  - by exists n1.
Qed.

Lemma fp_try {A} (m : M A) (h : exn -> M A) :
  footprint ks m -> (forall e, footprint ks (h e)) ->
  footprint ks (try_except m h).
Proof.
  intros Hm Hh w. unfold try_except.
  destruct (Hm w) as (n1 & E1 & F1).
  destruct (m w) as [[a|e] w1]; simpl in *.
  - by exists n1.
  - destruct (Hh e w1) as (n2 & E2 & F2).
    exists (n2 ++ n1). rewrite E2, E1, app_assoc. split; [done|].
    by apply Forall_app.
Qed.

Lemma fp_one {A} (m : M A) (e : event) :
  of_kinds ks e ->
  (forall w, w_log (snd (m w)) = e :: w_log w) -> footprint ks m.
Proof. intros He H w. exists [e]. rewrite H. by repeat constructor. Qed.

Lemma fp_print (m : message) : of_kinds ks (EvPrint m) -> footprint ks (print m).
Proof. intros H. by apply (fp_one _ (EvPrint m)). Qed.

Lemma fp_input (p : prompt) :
  (forall l, of_kinds ks (EvInput p l)) -> footprint ks (input p).
Proof.
  intros H w. unfold input. destruct (w_stdin w) as [|l ls]; simpl.
  - exists [EvInput p None]. by repeat constructor.
  - exists [EvInput p (Some l)]. by repeat constructor.
Qed.

Lemma fp_send (r : request) : of_kinds ks (EvHttp r) -> footprint ks (send r).
Proof.
  intros H. apply (fp_one _ (EvHttp r)); [done|].
  intros w. unfold send. by destruct (w_net w) as [|[|st body] rs].
Qed.

Lemma fp_makedirs (d : string) :
  of_kinds ks (EvMkdir d) -> footprint ks (makedirs d).
Proof. intros H. by apply (fp_one _ (EvMkdir d)). Qed.

Lemma fp_write (p : backup_path) (c : json) :
  of_kinds ks (EvWrite p c) -> footprint ks (write_json p c).
Proof. intros H. by apply (fp_one _ (EvWrite p c)). Qed.

Lemma fp_environ_get (k : string) : footprint ks (environ_get k).
Proof. by apply fp_silent. Qed.

Lemma fp_raise_for_status (resp : Z * option json) :
  footprint ks (raise_for_status resp).
Proof.
  apply fp_silent. intros w. unfold raise_for_status.
  by destruct (is_error_status (fst resp)).
Qed.

Lemma fp_resp_json (resp : Z * option json) : footprint ks (resp_json resp).
Proof.
  apply fp_silent. intros w. unfold resp_json. by destruct (snd resp).
Qed.

Lemma fp_now_stamp : footprint ks now_stamp.
Proof. by apply fp_silent. Qed.

Lemma fp_path_exists (d : string) : footprint ks (path_exists d).
Proof. by apply fp_silent. Qed.

Lemma fp_py_get (x : json) (k : string) (dflt : json) :
  footprint ks (py_get x k dflt).
Proof. apply fp_silent. intros w. by destruct x. Qed.

Lemma fp_py_index (x : json) (k : string) : footprint ks (py_index x k).
Proof.
  apply fp_silent. intros w. destruct x; try done.
  simpl. by destruct (dict_get k fields).
Qed.

Lemma fp_py_setitem (x : json) (k : string) (v : json) :
  footprint ks (py_setitem x k v).
Proof. apply fp_silent. intros w. by destruct x. Qed.

Lemma fp_py_lower (x : json) : footprint ks (py_lower x).
Proof. apply fp_silent. intros w. by destruct x. Qed.

Lemma fp_py_iter (x : json) : footprint ks (py_iter x).
Proof.
  apply fp_silent. intros w. unfold py_iter. by destruct (iter_items x).
Qed.

Lemma fp_py_format_width (x : json) : footprint ks (py_format_width x).
Proof. apply fp_silent. intros w. by destruct x. Qed.
End Footprint.

Lemma fp_weaken (ks ks' : list kind) {A} (m : M A) :
  (forall e, of_kinds ks e -> of_kinds ks' e) ->
  footprint ks m -> footprint ks' m.
Proof.
  intros Hsub Hm w. destruct (Hm w) as (new & E & F).
  exists new. split; [done|]. eapply Forall_impl; eauto.
Qed.

(** Walks down a computation built from the primitives. *)
Ltac fp_step :=
  first
    [ apply fp_ret | apply fp_raise
    | apply fp_bind; [|intros ?]
    | apply fp_try; [|intros ?]
    | apply fp_print; reflexivity
    | apply fp_input; intros ?; reflexivity
    | apply fp_send; reflexivity
    | apply fp_makedirs; reflexivity
    | apply fp_write; reflexivity
    | apply fp_environ_get | apply fp_raise_for_status | apply fp_resp_json
    | apply fp_now_stamp | apply fp_path_exists | apply fp_py_get
    | apply fp_py_index | apply fp_py_setitem | apply fp_py_lower
    | apply fp_py_iter | apply fp_py_format_width
    | match goal with
      | |- footprint _ (if ?b then _ else _) => destruct b
      | |- footprint _ (match ?x with _ => _ end) => destruct x
      | |- footprint _ (let '(_, _) := ?x in _) => destruct x
      end ].
Ltac fp := repeat fp_step.

Lemma fp_get_config :
  footprint [KAsk] get_config_from_env_or_prompt.
Proof. unfold get_config_from_env_or_prompt, unless_set. fp. Qed.

Lemma fp_list_pages (fuel : nat) (s : session) (u : url) (cursor : json)
    (results : list json) :
  footprint [KGet] (list_pages fuel s u cursor results).
Proof.
  revert cursor results. induction fuel as [|fuel IH]; intros cursor results;
    simpl; fp; apply IH.
Qed.

Lemma fp_list_tier1_gateways (s : session) (base_url : string) :
  footprint [KGet] (list_tier1_gateways s base_url).
Proof. intros w. apply fp_list_pages. Qed.

Lemma fp_classify_loop (t1_list : list json) (acc : buckets) :
  footprint [] (classify_loop t1_list acc).
Proof.
  revert acc. induction t1_list as [|t1 rest IH]; intros [[a c] n]; simpl;
    fp; apply IH.
Qed.

Lemma fp_print_details (l : list json) : footprint [KPrint] (print_details l).
Proof. induction l as [|t1 rest IH]; simpl; fp; apply IH. Qed.

Lemma fp_print_report (l a c n : list json) :
  footprint [KPrint] (print_report l a c n).
Proof. unfold print_report. fp; apply fp_print_details. Qed.

Lemma fp_update_t1_relocation (s : session) (base_url : string)
    (t1_id : json) (v : bool) (dir : string) :
  footprint [KPrint; KGet; KPut; KFile]
    (update_t1_relocation s base_url t1_id v dir).
Proof.
  unfold update_t1_relocation, get_t1_full_config, save_t1_backup. fp.
Qed.

Lemma fp_remediate_one (s : session) (base_url : string)
    (t1 : json) (acc : tally) :
  footprint [KPrint; KGet; KPut; KFile] (remediate_one s base_url t1 acc).
Proof.
  destruct acc as [[ok ko] files]. unfold remediate_one.
  apply fp_try; [|intros e].
  - apply fp_bind; [apply fp_py_index|intros t1_id].
    apply fp_bind; [apply fp_update_t1_relocation|intros rb]. fp.
  - fp.
Qed.

Lemma fp_remediate_selected (s : session) (base_url : string)
    (l : list json) (acc : tally) :
  footprint [KPrint; KGet; KPut; KFile] (remediate_selected s base_url l acc).
Proof.
  revert acc. induction l as [|t1 rest IH]; intros acc; simpl.
  - fp.
  - apply fp_bind; [apply fp_remediate_one|intros acc'; apply IH].
Qed.

Lemma fp_build_t1_map (l : list json) (m : gmap string json) :
  footprint [] (build_t1_map l m).
Proof. revert m. induction l as [|t1 rest IH]; intros m; simpl; fp; apply IH. Qed.

Lemma fp_select_loop (fuel : nat) (nc : list json) (m : gmap string json) :
  footprint [KPrint; KSelect] (select_loop fuel nc m).
Proof.
  induction fuel as [|fuel IH]; simpl; fp; apply IH.
Qed.

Lemma fp_select_t1s_to_modify (nc : list json) :
  footprint [KPrint; KSelect] (select_t1s_to_modify nc).
Proof.
  unfold select_t1s_to_modify.
  apply fp_bind; [fp|intros _].
  apply fp_bind; [|intros m w; apply fp_select_loop].
  apply (fp_weaken []); [done|apply fp_build_t1_map].
Qed.

(* ===================================================================== *)
(** ** The selector, one turn at a time *)
(* ===================================================================== *)

#[local] Arguments str_in : simpl never.
#[local] Arguments split_comma : simpl never.
#[local] Arguments pick : simpl never.

(** One turn of the loop of lines 214-254, spelled out on the world. *)
Lemma select_loop_step (fuel : nat) (nc : list json) (m : gmap string json)
    (w : world) :
  select_loop fuel nc m w =
  match w_stdin w with
  | [] => (Raise EOFError, log (EvInput PromptSelect None) w)
  | line :: ls =>
      let w1 := log (EvInput PromptSelect (Some line)) (set_stdin ls w) in
      if str_in (lower (strip line)) CANCEL then (Ok [], w1)
      else if str_in (lower (strip line)) ALL then (Ok nc, w1)
      else
        let sn := pick m (tokens line) [] [] in
        let w2 := match snd sn with
                  | [] => w1
                  | _ => log (EvPrint (MsgNotFound (snd sn))) w1
                  end in
        match fst sn with
        | [] =>
            match fuel with
            | O => (Raise EOFError, log (EvPrint MsgNoValidSelection) w2)
            | S fuel' =>
                select_loop fuel' nc m (log (EvPrint MsgNoValidSelection) w2)
            end
        | _ => (Ok (fst sn), w2)
        end
  end.
Proof.
  destruct fuel; simpl; unfold bind, input;
    (destruct (w_stdin w) as [|line ls]; [done|]); simpl;
    (destruct (str_in (lower (strip line)) CANCEL); [done|]);
    (destruct (str_in (lower (strip line)) ALL); [done|]);
    unfold tokens; destruct (pick m (map strip (split_comma (strip line))) [] [])
      as [[|t sel] [|x nf]]; reflexivity.
Qed.

(** More fuel than lines changes nothing. *)
Lemma select_loop_fuel (f1 f2 : nat) (nc : list json)
    (m : gmap string json) (w : world) :
  (length (w_stdin w) <= f1)%nat -> (length (w_stdin w) <= f2)%nat ->
  select_loop f1 nc m w = select_loop f2 nc m w.
Proof.
  revert f2 w. induction f1 as [|f1 IH]; intros f2 w H1 H2;
    rewrite (select_loop_step _ nc m w), (select_loop_step f2 nc m w);
    destruct (w_stdin w) as [|line ls] eqn:E; simpl in *; try done;
    try lia.
  destruct f2 as [|f2]; [lia|].
  destruct (str_in (lower (strip line)) CANCEL); [done|].
  destruct (str_in (lower (strip line)) ALL); [done|].
  destruct (fst (pick m (tokens line) [] []));
    [|done].
  apply IH; destruct (snd (pick _ _ _ _)); simpl; lia.
Qed.

(** A run of the loop that read a cancellation word returned the empty
    selection. *)
Lemma select_loop_cancel (fuel : nat) (nc : list json)
    (m : gmap string json) (w : world) :
  exists new,
    w_log (snd (select_loop fuel nc m w)) = new ++ w_log w /\
    Forall (of_kinds [KPrint; KSelect]) new /\
    (fst (select_loop fuel nc m w) = Ok [] \/ Forall quiet_select new).
Proof.
  revert w. induction fuel as [|fuel IH]; intros w;
    rewrite select_loop_step;
    (destruct (w_stdin w) as [|line ls];
       [exists [EvInput PromptSelect None]; by repeat constructor|]);
    cbv zeta;
    (destruct (str_in (lower (strip line)) CANCEL) eqn:Ec;
       [exists [EvInput PromptSelect (Some line)];
        repeat split; [by repeat constructor | by left]|]);
    (destruct (str_in (lower (strip line)) ALL);
       [exists [EvInput PromptSelect (Some line)];
        repeat split; [by repeat constructor | right; by repeat constructor]|]);
    unfold tokens; destruct (pick m (map strip (split_comma (strip line))) [] [])
      as [[|t sel] [|x nf]]; simpl.
  all: try (eexists [_]; repeat split;
            [by repeat constructor | right; by repeat constructor]).
  all: try (eexists [_; _]; repeat split;
            [by repeat constructor | right; by repeat constructor]).
  all: try (eexists [_; _; _]; repeat split;
            [by repeat constructor | right; by repeat constructor]).
  - match goal with |- context [select_loop fuel nc m ?w1] =>
      destruct (IH w1) as (new & E & F & Q) end.
    eexists (new ++ [_; _]). rewrite E. simpl. rewrite <- app_assoc.
    repeat split.
    + apply Forall_app. split; [done | by repeat constructor].
    + destruct Q as [Q|Q]; [by left | right].
      apply Forall_app. split; [done | by repeat constructor].
  - match goal with |- context [select_loop fuel nc m ?w1] =>
      destruct (IH w1) as (new & E & F & Q) end.
    eexists (new ++ [_; _; _]). rewrite E. simpl. rewrite <- app_assoc.
    repeat split.
    + apply Forall_app. split; [done | by repeat constructor].
    + destruct Q as [Q|Q]; [by left | right].
      apply Forall_app. split; [done | by repeat constructor].
Qed.

Lemma build_t1_map_log (l : list json) (m : gmap string json) (w : world) :
  snd (build_t1_map l m w) = w.
Proof.
  revert m. induction l as [|t1 rest IH]; intros m; simpl; [done|].
  unfold bind.
  destruct t1; try done. simpl.
  destruct (default (JStr "") (dict_get "display_name" fields)); try done.
  simpl.
  destruct (default (JStr "") (dict_get "id" fields)); try done.
  simpl. apply IH.
Qed.

Lemma select_cancel (nc : list json) (w : world) :
  exists new,
    w_log (snd (select_t1s_to_modify nc w)) = new ++ w_log w /\
    Forall (of_kinds [KPrint; KSelect]) new /\
    (fst (select_t1s_to_modify nc w) = Ok [] \/ Forall quiet_select new).
Proof.
  unfold select_t1s_to_modify, bind, print. simpl.
  pose proof (build_t1_map_log nc ∅ (log (EvPrint MsgSelectMenu) w)) as Hb.
  destruct (build_t1_map nc ∅ (log (EvPrint MsgSelectMenu) w))
    as [[m|e] w1]; simpl in Hb; subst w1.
  - match goal with |- context [select_loop ?f nc m ?w1] =>
      destruct (select_loop_cancel f nc m w1) as (new & E & F & Q) end.
    exists (new ++ [EvPrint MsgSelectMenu]). rewrite E. simpl.
    rewrite <- app_assoc. repeat split.
    + apply Forall_app. split; [done | by repeat constructor].
    + destruct Q as [Q|Q]; [by left | right].
      apply Forall_app. split; [done | by repeat constructor].
  - exists [EvPrint MsgSelectMenu]. repeat split;
      [by repeat constructor | right; by repeat constructor].
Qed.

(* ===================================================================== *)
(** ** The main flow: nothing is written before the confirmation *)
(* ===================================================================== *)

Ltac by_kind e :=
  destruct e as [?|[| | | |?] ?|[? ?|? ?]|?|? ?]; simpl in *;
  try done; try discriminate.

Lemma before_confirm_quiet (e : event) :
  of_kinds [KPrint; KAsk; KGet] e -> before_confirm e.
Proof. intros H. split; by_kind e. Qed.

Lemma before_confirm_without_put (e : event) :
  before_confirm e -> without_put e.
Proof. intros [H _]. by_kind e. Qed.

Lemma select_without_put (e : event) :
  of_kinds [KPrint; KSelect] e -> without_put e.
Proof. intros H. by_kind e. Qed.

Lemma runs_guarded_quiet {A} (m : M A) :
  footprint [KPrint; KAsk; KGet; KSelect; KConfirm] m -> runs_guarded m.
Proof.
  intros Hm w. destruct (Hm w) as (new & E & F). exists new.
  split; [done | by left].
Qed.

Lemma guarded_after (n1 n2 : list event) :
  Forall before_confirm n1 -> guarded n2 -> guarded (n2 ++ n1).
Proof.
  intros F1 [F2|(post & n & ans & pre & -> & Fpost & Fpre & Hn & Hyes)].
  - left. apply Forall_app. split; [done|].
    eapply Forall_impl; [done | apply before_confirm_without_put].
  - right. exists post, n, ans, (pre ++ n1).
    rewrite <- app_assoc. simpl. repeat split; try done.
    by apply Forall_app.
Qed.

Lemma runs_guarded_bind {A B} (m : M A) (k : A -> M B) :
  footprint [KPrint; KAsk; KGet] m ->
  (forall a, runs_guarded (k a)) -> runs_guarded (bind m k).
Proof.
  intros Hm Hk w. unfold bind.
  destruct (Hm w) as (n1 & E1 & F1).
  assert (F1' : Forall before_confirm n1).
  { eapply Forall_impl; [done | apply before_confirm_quiet]. }
  destruct (m w) as [[a|e] w1]; simpl in *.
  - destruct (Hk a w1) as (n2 & E2 & G2).
    exists (n2 ++ n1). rewrite E2, E1, app_assoc. split; [done|].
    by apply guarded_after.
  - exists n1. split; [done|]. left.
    eapply Forall_impl; [done | apply before_confirm_without_put].
Qed.

(** After the selector: an empty selection ends the run with prints only,
    a non-empty one was not obtained by a cancellation word. *)
Lemma runs_guarded_select {B} (nc : list json) (k : list json -> M B) :
  footprint [KPrint] (k []) ->
  (forall t sel, runs_guarded (k (t :: sel))) ->
  runs_guarded (bind (select_t1s_to_modify nc) k).
Proof.
  intros Hnil Hcons w. unfold bind.
  destruct (select_cancel nc w) as (n1 & E1 & F1 & Q1).
  destruct (select_t1s_to_modify nc w) as [[[|t sel]|e] w1]; simpl in *.
  - destruct (Hnil w1) as (n2 & E2 & F2).
    exists (n2 ++ n1). rewrite E2, E1, app_assoc. split; [done|]. left.
    apply Forall_app. split.
    + eapply Forall_impl; [done|]. intros e He. by_kind e.
    + eapply Forall_impl; [done | apply select_without_put].
  - destruct Q1 as [[=]|Q1].
    destruct (Hcons t sel w1) as (n2 & E2 & G2).
    exists (n2 ++ n1). rewrite E2, E1, app_assoc. split; [done|].
    apply guarded_after; [|done].
    apply Forall_forall. intros e He. split.
    + rewrite Forall_forall in F1. specialize (F1 e He). by_kind e.
    + rewrite Forall_forall in Q1. by apply Q1.
  - exists n1. split; [done|]. left.
    eapply Forall_impl; [done | apply select_without_put].
Qed.

(** Lines 288-324 for a selection of [n > 0] gateways. *)
Lemma runs_guarded_confirm {A} (n : nat) (go : M A) (stop : M A) :
  (0 < n)%nat ->
  footprint [KPrint; KGet; KPut; KFile] go ->
  footprint [KPrint] stop ->
  runs_guarded
    (bind (input (PromptConfirm n))
       (fun answer =>
          if str_in (lower (strip answer)) YES then go else stop)).
Proof.
  intros Hn Hgo Hstop w. unfold bind, input.
  destruct (w_stdin w) as [|ans ls]; simpl.
  - exists [EvInput (PromptConfirm n) None]. split; [done|]. left.
    by repeat constructor.
  - destruct (str_in (lower (strip ans)) YES) eqn:Hyes.
    + match goal with |- context [go ?w1] =>
        destruct (Hgo w1) as (n2 & E2 & F2) end.
      exists (n2 ++ [EvInput (PromptConfirm n) (Some ans)]).
      rewrite E2. simpl. rewrite <- app_assoc. split; [done|]. right.
      exists n2, n, ans, []. repeat split; try done.
    + match goal with |- context [stop ?w1] =>
        destruct (Hstop w1) as (n2 & E2 & F2) end.
      exists (n2 ++ [EvInput (PromptConfirm n) (Some ans)]).
      rewrite E2. simpl. rewrite <- app_assoc. split; [done|]. left.
      apply Forall_app. split; [|by repeat constructor].
      eapply Forall_impl; [done|]. intros e He. by_kind e.
Qed.

Lemma main_runs_guarded : runs_guarded main.
Proof.
  unfold main.
  apply runs_guarded_bind;
    [apply (fp_weaken [KAsk]); [intros e He; by_kind e|apply fp_get_config]|].
  intros [[nsx_manager username] password]. cbv beta iota zeta.
  unfold create_session.
  apply runs_guarded_bind; [fp|intros _].
  apply runs_guarded_bind;
    [apply (fp_weaken [KGet]);
       [intros e He; by_kind e|apply fp_list_tier1_gateways]|].
  intros t1_list.
  apply runs_guarded_bind;
    [apply (fp_weaken []); [intros e He; by_kind e|apply fp_classify_loop]|].
  intros [[a c] nc].
  apply runs_guarded_bind;
    [apply (fp_weaken [KPrint]);
       [intros e He; by_kind e|apply fp_print_report]|].
  intros _.
  destruct nc as [|t0 nc].
  - apply runs_guarded_quiet. fp.
  - apply runs_guarded_select; [fp|]. intros t sel.
    apply runs_guarded_bind; [fp|intros _].
    apply runs_guarded_confirm; [simpl; lia | | fp].
    apply fp_bind; [fp|intros _].
    apply fp_bind; [apply fp_remediate_selected|intros [[ok ko] files]]. fp.
Qed.

(* ===================================================================== *)
(** ** The remediation loop *)
(* ===================================================================== *)

Lemma bind_assoc {A B C} (m : M A) (f : A -> M B) (g : B -> M C) (w : world) :
  bind (bind m f) g w = bind m (fun x => bind (f x) g) w.
Proof. unfold bind. by destruct (m w) as [[a|e] w1]. Qed.

(** Whatever the reply, the request is on the log, and what follows adds
    to it. *)
Lemma send_then (ks : list kind) {A} (r : request)
    (k : Z * option json -> M A) (w : world) :
  (forall resp, footprint ks (k resp)) ->
  exists post,
    w_log (snd (bind (send r) k w)) = post ++ EvHttp r :: w_log w /\
    Forall (of_kinds ks) post.
Proof.
  intros Hk. unfold bind, send.
  destruct (w_net w) as [|[|st body] rs]; simpl;
    try (by exists []).
  destruct (Hk (st, body) (log (EvHttp r) (set_net rs w))) as (post & E & F).
  by exists post.
Qed.

(** [update_t1_relocation] issues its GET first, and no other GET. *)
Lemma update_one_get (s : session) (base_url : string) (t1_id : json)
    (v : bool) (dir : string) (w : world) :
  exists post,
    w_log (snd (update_t1_relocation s base_url t1_id v dir w)) =
      post ++ EvHttp (HttpGet (UrlTier1 base_url t1_id) [])
           :: EvPrint (MsgGet t1_id) :: w_log w /\
    Forall (of_kinds [KPrint; KPut; KFile]) post.
Proof.
  unfold update_t1_relocation, get_t1_full_config.
  unfold bind at 1. unfold print at 1.
  rewrite !bind_assoc.
  apply (send_then [KPrint; KPut; KFile]).
  intros resp. unfold save_t1_backup. fp.
Qed.

Lemma get_requests_app (t1 t2 : list event) :
  get_requests (t1 ++ t2) = get_requests t1 ++ get_requests t2.
Proof. unfold get_requests. apply omap_app. Qed.

Lemma get_requests_none (l : list event) :
  Forall (of_kinds [KPrint; KPut; KFile]) l -> get_requests (rev l) = [].
Proof.
  induction 1 as [|e l He Hl IH]; simpl; [done|].
  rewrite get_requests_app, IH. by_kind e.
Qed.

Lemma remediate_one_with_id (s : session) (base_url : string) (d : dict)
    (t1_id : json) (ok ko : nat) (files : list backup_path) (w : world) :
  dict_get "id" d = Some t1_id ->
  remediate_one s base_url (JObj d) (ok, ko, files) w =
  match update_t1_relocation s base_url t1_id true "backups" w with
  | (Ok rb, w1) => (Ok (S ok, ko, files ++ [snd rb]), w1)
  | (Raise e, w1) =>
      (Ok (ok, S ko, files),
       log (EvPrint match e with
                    | HTTPError st => MsgHttpError t1_id st
                    | _ => MsgGenericError t1_id e
                    end) w1)
  end.
Proof.
  intros Hid. unfold remediate_one, try_except, bind. simpl. rewrite Hid.
  simpl.
  destruct (update_t1_relocation s base_url t1_id true "backups" w)
    as [[rb|e] w1]; [done|]. by destruct e.
Qed.

Lemma remediate_one_without_id (s : session) (base_url : string) (d : dict)
    (ok ko : nat) (files : list backup_path) (w : world) :
  dict_get "id" d = None ->
  remediate_one s base_url (JObj d) (ok, ko, files) w =
  (Ok (ok, S ko, files), log (EvPrint (MsgGenericError JNull KeyError)) w).
Proof.
  intros Hid. unfold remediate_one, try_except, bind. simpl. by rewrite Hid.
Qed.

(** One turn never raises: it counts a success and records the backup
    path, or it counts an error; and it issued the GET for the gateway's
    id when the gateway has one. *)
Lemma remediate_one_total (s : session) (base_url : string) (d : dict)
    (ok ko : nat) (files : list backup_path) (w : world) :
  exists acc' new,
    fst (remediate_one s base_url (JObj d) (ok, ko, files) w) = Ok acc' /\
    w_log (snd (remediate_one s base_url (JObj d) (ok, ko, files) w))
      = new ++ w_log w /\
    ((exists p, acc' = (S ok, ko, files ++ [p])) \/
     acc' = (ok, S ko, files)) /\
    get_requests (rev new) =
      match dict_get "id" d with
      | Some t1_id => [HttpGet (UrlTier1 base_url t1_id) []]
      | None => []
      end.
Proof.
  destruct (dict_get "id" d) as [t1_id|] eqn:Hid.
  - rewrite remediate_one_with_id with (t1_id := t1_id) by done.
    destruct (update_one_get s base_url t1_id true "backups" w)
      as (post & E & F).
    destruct (update_t1_relocation s base_url t1_id true "backups" w)
      as [[rb|e] w1]; simpl in E |- *.
    + eexists _, (post ++ [_; _]).
      repeat split; [by rewrite E, <- app_assoc | left; eauto |].
      by rewrite rev_app_distr, get_requests_app,
        (get_requests_none post).
    + rewrite E. eexists _, ((EvPrint _ :: post) ++ [_; _]).
      repeat split; [by rewrite <- app_assoc | by right |].
      rewrite rev_app_distr, get_requests_app,
        (get_requests_none (_ :: post)); [done|].
      constructor; [done | exact F].
  - rewrite remediate_one_without_id by done. simpl.
    eexists _, [_]. repeat split. by right.
Qed.

Lemma remediate_selected_total (s : session) (base_url : string)
    (ds : list dict) (ok0 ko0 : nat) (files0 : list backup_path) (w : world) :
  exists ok ko files new,
    fst (remediate_selected s base_url (map JObj ds) (ok0, ko0, files0) w)
      = Ok ((ok0 + ok)%nat, (ko0 + ko)%nat, files0 ++ files) /\
    w_log (snd (remediate_selected s base_url (map JObj ds)
                  (ok0, ko0, files0) w)) = new ++ w_log w /\
    (ok + ko)%nat = length ds /\
    length files = ok /\
    get_requests (rev new) =
      map (fun t1_id => HttpGet (UrlTier1 base_url t1_id) [])
          (omap (dict_get "id") ds).
Proof.
  revert ok0 ko0 files0 w.
  induction ds as [|d ds IH]; intros ok0 ko0 files0 w; simpl.
  - exists O, O, [], []. rewrite !Nat.add_0_r, app_nil_r. done.
  - destruct (remediate_one_total s base_url d ok0 ko0 files0 w)
      as (acc' & n1 & R1 & E1 & Hacc & G1).
    destruct (remediate_one s base_url (JObj d) (ok0, ko0, files0) w)
      as [r1 w1] eqn:H1; simpl in R1, E1. subst r1.
    rewrite !(bind_ok _ _ _ _ _ H1).
    destruct Hacc as [[p ->]| ->].
    + destruct (IH (S ok0) ko0 (files0 ++ [p]) w1)
        as (ok & ko & files & n2 & R2 & E2 & Hlen & Hfiles & G2).
      exists (S ok), ko, (p :: files), (n2 ++ n1).
      rewrite R2, E2, E1. repeat split.
      * f_equal. f_equal; [f_equal; lia|]. by rewrite <- app_assoc.
      * by rewrite app_assoc.
      * simpl. lia.
      * simpl. lia.
      * rewrite rev_app_distr, get_requests_app, G1, G2.
        by destruct (dict_get "id" d).
    + destruct (IH ok0 (S ko0) files0 w1)
        as (ok & ko & files & n2 & R2 & E2 & Hlen & Hfiles & G2).
      exists ok, (S ko), files, (n2 ++ n1).
      rewrite R2, E2, E1. repeat split.
      * f_equal. f_equal. f_equal. lia.
      * by rewrite app_assoc.
      * simpl. lia.
      * done.
      * rewrite rev_app_distr, get_requests_app, G1, G2.
        by destruct (dict_get "id" d).
Qed.

(** The counters and the paths the loop returns are those of the updates
    that returned and of the gateways that failed. *)
Lemma remediate_selected_outcomes (s : session) (base_url : string)
    (ds : list dict) (ok0 ko0 : nat) (files0 : list backup_path) (w : world) :
  fst (remediate_selected s base_url (map JObj ds) (ok0, ko0, files0) w) =
  Ok ((ok0 + length (omap id (outcomes s base_url ds (ok0, ko0, files0) w)))%nat,
      (ko0 + length (List.filter failed
                       (outcomes s base_url ds (ok0, ko0, files0) w)))%nat,
      files0 ++ omap id (outcomes s base_url ds (ok0, ko0, files0) w)) /\
  length (outcomes s base_url ds (ok0, ko0, files0) w) = length ds.
Proof.
  revert ok0 ko0 files0 w.
  induction ds as [|d ds IH]; intros ok0 ko0 files0 w.
  - simpl. by rewrite !Nat.add_0_r, app_nil_r.
  - cbn [map remediate_selected outcomes].
    destruct (dict_get "id" d) as [t1_id|] eqn:Hid.
    + pose proof (remediate_one_with_id s base_url d t1_id ok0 ko0 files0 w
                    Hid) as H1.
      destruct (update_t1_relocation s base_url t1_id true "backups" w)
        as [[rb|e] w1]; rewrite H1, (bind_ok _ _ _ _ _ H1);
        cbv beta iota; cbn [fst].
      * destruct (IH (S ok0) ko0 (files0 ++ [snd rb]) w1) as [IH1 IH2].
        rewrite IH1. split; [|by cbn [length]; rewrite IH2].
        change (omap id (Some (snd rb) :: ?l)) with (snd rb :: omap id l).
        cbn [List.filter failed length].
        rewrite <- app_assoc. cbn [app]. by rewrite Nat.add_succ_r.
      * destruct (IH ok0 (S ko0) files0
                    (log (EvPrint match e with
                                  | HTTPError st => MsgHttpError t1_id st
                                  | _ => MsgGenericError t1_id e
                                  end) w1)) as [IH1 IH2].
        rewrite IH1. split; [|by cbn [length]; rewrite IH2].
        change (omap id (None :: ?l)) with (omap id l).
        cbn [List.filter failed length]. by rewrite Nat.add_succ_r.
    + pose proof (remediate_one_without_id s base_url d ok0 ko0 files0 w Hid)
        as H1.
      rewrite H1, (bind_ok _ _ _ _ _ H1). cbv beta iota.
      destruct (IH ok0 (S ko0) files0
                  (log (EvPrint (MsgGenericError JNull KeyError)) w))
        as [IH1 IH2].
      rewrite IH1. split; [|by cbn [length]; rewrite IH2].
      change (omap id (None :: ?l)) with (omap id l).
      cbn [List.filter failed length]. by rewrite Nat.add_succ_r.
Qed.

(* ===================================================================== *)
(** ** The lister, one page at a time *)
(* ===================================================================== *)

Lemma list_pages_step (fuel : nat) (s : session) (u : url) (cursor : json)
    (results : list json) (w : world) :
  list_pages fuel s u cursor results w =
  match w_net w with
  | [] => (Raise ConnectionError, log (EvHttp (list_request u cursor)) w)
  | r :: rs =>
      let w1 := log (EvHttp (list_request u cursor)) (set_net rs w) in
      match page_view r with
      | Some (items, next) =>
          if truthy next then
            match fuel with
            | O => (Raise ConnectionError, w1)
            | S fuel' => list_pages fuel' s u next (results ++ items) w1
            end
          else (Ok (results ++ items), w1)
      | None => (Raise (page_error r), w1)
      end
  end.
Proof.
  unfold list_request.
  destruct fuel; simpl;
    unfold bind, send, raise_for_status, resp_json, py_iter, page_view,
      page_error, ret, raise;
    (destruct (w_net w) as [|[|st body] rs]; [done|done|]); simpl;
    destruct (is_error_status st), body as [[| | | | |d]|]; try done; simpl;
    (destruct (iter_items (default (JArr []) (dict_get "results" d)));
       [|done]); simpl;
    by destruct (truthy (default JNull (dict_get "cursor" d))).
Qed.

(** More fuel than replies changes nothing. *)
Lemma list_pages_fuel (f1 f2 : nat) (s : session) (u : url) (cursor : json)
    (results : list json) (w : world) :
  (length (w_net w) <= f1)%nat -> (length (w_net w) <= f2)%nat ->
  list_pages f1 s u cursor results w = list_pages f2 s u cursor results w.
Proof.
  revert f2 cursor results w.
  induction f1 as [|f1 IH]; intros f2 cursor results w H1 H2;
    rewrite (list_pages_step _ s u cursor results w),
            (list_pages_step f2 s u cursor results w);
    destruct (w_net w) as [|r rs] eqn:E; simpl in *; try done; try lia.
  destruct f2 as [|f2]; [lia|].
  destruct (page_view r) as [[items next]|]; [|done].
  destruct (truthy next); [|done].
  apply IH; simpl; lia.
Qed.

(** The loop over a script that starts with pages carrying a cursor and
    goes on with a reply [last] that carries none or fails. *)
Lemma list_pages_run (s : session) (u : url) (pages : list reply)
    (views : list (list json * json)) (last : reply) (rest : list reply) :
  Forall2 (fun r v => page_view r = Some v) pages views ->
  Forall (fun v => truthy (snd v) = true) views ->
  match page_view last with
  | Some (_, c) => truthy c = false
  | None => True
  end ->
  forall (fuel : nat) (cursor : json) (results : list json) (w : world),
  w_net w = pages ++ last :: rest ->
  (length pages <= fuel)%nat ->
  fst (list_pages fuel s u cursor results w) =
    match page_view last with
    | Some (items, _) => Ok (results ++ concat (map fst views) ++ items)
    | None => Raise (page_error last)
    end /\
  w_net (snd (list_pages fuel s u cursor results w)) = rest /\
  w_stdin (snd (list_pages fuel s u cursor results w)) = w_stdin w /\
  trace (snd (list_pages fuel s u cursor results w)) =
    trace w ++
    map EvHttp (list_request u cursor
                  :: map (fun v => list_request u (snd v)) views).
Proof.
  intros Hviews. induction Hviews as [|r v pages views Hr Hviews IH];
    intros Htruthy Hlast fuel cursor results w Hnet Hfuel;
    rewrite list_pages_step, Hnet; simpl.
  - destruct (page_view last) as [[items c]|]; simpl.
    + by rewrite Hlast.
    + done.
  - rewrite Hr. destruct v as [items next].
    apply Forall_cons in Htruthy as [Hnext Htruthy]. simpl in Hnext.
    rewrite Hnext. destruct fuel as [|fuel]; [simpl in Hfuel; lia|].
    match goal with |- context [list_pages fuel s u next ?r ?w1] =>
      destruct (IH Htruthy Hlast fuel next r w1) as (R & N & I & T);
        [done | simpl in Hfuel; lia |] end.
    rewrite R, N, I, T. repeat split.
    + destruct (page_view last) as [[items' c]|]; [|done].
      simpl. by rewrite <- !app_assoc.
    + unfold trace. simpl. by rewrite <- !app_assoc.
Qed.

(* ===================================================================== *)
(** ** The selector: lookup table, tokens, outcome *)
(* ===================================================================== *)




(** The table does not look at the world. *)
Lemma build_t1_map_pure (l : list json) (m : gmap string json) :
  exists r, forall w, build_t1_map l m w = (r, w).
Proof.
  revert m. induction l as [|t1 rest IH]; intros m; simpl.
  - by exists (Ok m).
  - unfold bind.
    destruct t1; try (by exists (Raise AttributeError)). simpl.
    destruct (default (JStr "") (dict_get "display_name" fields));
      try (by exists (Raise AttributeError)). simpl.
    destruct (default (JStr "") (dict_get "id" fields));
      try (by exists (Raise AttributeError)). simpl.
    apply IH.
Qed.


Lemma distinct_nil : distinct [].
Proof. intros i j x y _ Hi. by rewrite lookup_nil in Hi. Qed.

Lemma distinct_snoc (l : list json) (t : json) :
  distinct l -> py_in t l = false -> distinct (l ++ [t]).
Proof.
  intros Hl Hin i j x y Hij Hi Hj.
  assert (Hj' : (j < length (l ++ [t]))%nat) by (by eapply lookup_lt_Some).
  rewrite length_app in Hj'. simpl in Hj'.
  rewrite lookup_app_l in Hi by lia.
  destruct (decide (j < length l)%nat) as [Hlt|Hge].
  - rewrite lookup_app_l in Hj by done. exact (Hl i j x y Hij Hi Hj).
  - assert (j = length l) as -> by lia.
    rewrite list_lookup_middle in Hj by done. injection Hj as <-.
    unfold py_in in Hin.
    destruct (py_eq t x) eqn:E; [|done].
    assert (existsb (fun e => py_eq t e) l = true); [|congruence].
    apply existsb_exists. exists x. split; [|done].
    apply list_elem_of_In. by eapply list_elem_of_lookup_2.
Qed.

Lemma pick_cons (m : gmap string json) (name : string)
    (names : list string) (sel : list json) (nf : list string) :
  pick m (name :: names) sel nf =
  match m !! lower name with
  | Some t1 =>
      if py_in t1 sel then pick m names sel nf
      else pick m names (sel ++ [t1]) nf
  | None => pick m names sel (nf ++ [name])
  end.
Proof. reflexivity. Qed.

(** The selection gathered from the tokens holds no gateway twice. *)
Lemma pick_distinct (m : gmap string json) (names : list string)
    (sel : list json) (nf : list string) :
  distinct sel -> distinct (fst (pick m names sel nf)).
Proof.
  revert sel nf. induction names as [|name names IH]; intros sel nf Hsel;
    [done|]. rewrite pick_cons.
  destruct (m !! lower name) as [t|]; [|by apply IH].
  destruct (py_in t sel) eqn:E; [by apply IH|].
  apply IH. by apply distinct_snoc.
Qed.



(** The selector once the table is built. *)
Lemma select_unfold (nc : list json) (m : gmap string json) (w : world) :
  fst (build_t1_map nc ∅ w) = Ok m ->
  select_t1s_to_modify nc w =
  select_loop (length (w_stdin w)) nc m (log (EvPrint MsgSelectMenu) w).
Proof.
  intros Hm. unfold select_t1s_to_modify, bind, print. simpl.
  destruct (build_t1_map_pure nc ∅) as [r Hr].
  rewrite Hr in Hm. simpl in Hm. subst r. by rewrite Hr.
Qed.

Lemma select_raises (nc : list json) (e : exn) (w : world) :
  fst (build_t1_map nc ∅ w) = Raise e ->
  select_t1s_to_modify nc w = (Raise e, log (EvPrint MsgSelectMenu) w).
Proof.
  intros Hm. unfold select_t1s_to_modify, bind, print. simpl.
  destruct (build_t1_map_pure nc ∅) as [r Hr].
  rewrite Hr in Hm. simpl in Hm. subst r. by rewrite Hr.
Qed.

(** What the loop returns was decided by the last line it read. *)
Lemma select_loop_returns (fuel : nat) (nc : list json)
    (m : gmap string json) (w w' : world) (sel : list json) :
  select_loop fuel nc m w = (Ok sel, w') ->
  exists line notes earlier,
    w_log w' = notes ++ EvInput PromptSelect (Some line) :: earlier ++ w_log w
    /\ Forall (of_kinds [KPrint]) notes /\
    ((str_in (lower (strip line)) CANCEL = true /\ sel = []) \/
     (str_in (lower (strip line)) CANCEL = false /\
      str_in (lower (strip line)) ALL = true /\ sel = nc) \/
     (str_in (lower (strip line)) CANCEL = false /\
      str_in (lower (strip line)) ALL = false /\
      sel = fst (pick m (tokens line) [] []) /\ sel <> [])).
Proof.
  revert w. induction fuel as [|fuel IH]; intros w;
    rewrite select_loop_step;
    (destruct (w_stdin w) as [|line ls]; [done|]); cbv zeta;
    (destruct (str_in (lower (strip line)) CANCEL) eqn:Ec;
       [intros [= <- <-]; exists line, [], []; simpl; by eauto|]);
    (destruct (str_in (lower (strip line)) ALL) eqn:Ea;
       [intros [= <- <-]; exists line, [], []; simpl; by eauto 10|]);
    destruct (pick m (tokens line) [] []) as [[|t sel0] [|x nf]] eqn:Ep;
    simpl; try discriminate.
  all: try (intros [= <- <-]; simpl;
            first [ exists line, [], []; simpl; split; [done|];
                    split; [done|]; right; right; by rewrite Ep
                  | exists line, [EvPrint (MsgNotFound (x :: nf))], [];
                    simpl; split; [done|];
                    split; [by repeat constructor|];
                    right; right; by rewrite Ep ]).
  - intros H. apply IH in H as (line' & notes & earlier & E & F & C).
    exists line', notes,
      (earlier ++ [EvPrint MsgNoValidSelection;
                   EvInput PromptSelect (Some line)]).
    simpl in E. rewrite E. rewrite <- !app_assoc. done.
  - intros H. apply IH in H as (line' & notes & earlier & E & F & C).
    exists line', notes,
      (earlier ++ [EvPrint MsgNoValidSelection;
                   EvPrint (MsgNotFound (x :: nf));
                   EvInput PromptSelect (Some line)]).
    simpl in E. rewrite E. rewrite <- !app_assoc. done.
Qed.

(** The loop looks at the lines to come and at nothing else. *)
Lemma select_loop_stdin (fuel : nat) (nc : list json)
    (m : gmap string json) (w1 w2 : world) :
  w_stdin w1 = w_stdin w2 ->
  fst (select_loop fuel nc m w1) = fst (select_loop fuel nc m w2) /\
  w_stdin (snd (select_loop fuel nc m w1))
    = w_stdin (snd (select_loop fuel nc m w2)).
Proof.
  revert w1 w2. induction fuel as [|fuel IH]; intros w1 w2 Hw;
    rewrite (select_loop_step _ nc m w1), (select_loop_step _ nc m w2);
    rewrite Hw;
    (destruct (w_stdin w2) as [|line ls] eqn:E2;
       [simpl; by rewrite Hw, E2|]); cbv zeta;
    (destruct (str_in (lower (strip line)) CANCEL); [done|]);
    (destruct (str_in (lower (strip line)) ALL); [done|]);
    destruct (pick m (tokens line) [] []) as [[|t sel0] [|x nf]];
    simpl; try done; by apply IH.
Qed.

(** After a line that selected nothing the loop asks again. *)
Lemma select_loop_asks (fuel : nat) (nc : list json) (m : gmap string json)
    (w : world) :
  exists later,
    w_log (snd (select_loop fuel nc m w)) =
      later ++ EvInput PromptSelect (head (w_stdin w)) :: w_log w.
Proof.
  rewrite select_loop_step.
  destruct (w_stdin w) as [|line ls]; [by exists []|]. cbv zeta.
  destruct (str_in (lower (strip line)) CANCEL); [by exists []|].
  destruct (str_in (lower (strip line)) ALL); [by exists []|].
  destruct (pick m (tokens line) [] []) as [[|t sel0] [|x nf]]; simpl;
    try (by exists []); try (by eexists [_]).
  - destruct fuel as [|fuel]; [by eexists [_]|].
    match goal with |- context [select_loop fuel nc m ?w1] =>
      destruct (fp_select_loop fuel nc m w1) as (new & E & _) end.
    rewrite E. simpl. eexists (new ++ [_]). by rewrite <- app_assoc.
  - destruct fuel as [|fuel]; [by eexists [_; _]|].
    match goal with |- context [select_loop fuel nc m ?w1] =>
      destruct (fp_select_loop fuel nc m w1) as (new & E & _) end.
    rewrite E. simpl. eexists (new ++ [_; _]). by rewrite <- app_assoc.
Qed.


(* ===================================================================== *)
(** ** Properties of the classifier *)
(* ===================================================================== *)

(** C2. Whatever gateway records come in, [classify_t1s] returns three
    buckets and changes nothing in the world; no record is in both
    [compliant] and [non_compliant]; a record is in [active_standby_all]
    exactly when it is in one of the two; [active_standby_all] holds exactly
    the input records whose [ha_mode] is ["ACTIVE_STANDBY"]; a record with
    any other [ha_mode] is in none of the three; every bucket lists its
    records in input order (the two compliance buckets are subsequences of
    [active_standby_all], which is a subsequence of the input, and their
    lengths add up to its length). *)
Theorem classify_t1s_partition (gs : list dict) (w : world) :
  exists a c n : list json,
    classify_t1s (map JObj gs) w = (Ok (a, c, n), w) /\
    (forall x, x ∈ c -> x ∉ n) /\
    (forall x, x ∈ a <-> (x ∈ c \/ x ∈ n)) /\
    (forall x, x ∈ a <->
       exists d, x = JObj d /\ d ∈ gs /\
                 dict_get "ha_mode" d = Some (JStr "ACTIVE_STANDBY")) /\
    (forall d, dict_get "ha_mode" d <> Some (JStr "ACTIVE_STANDBY") ->
       (JObj d ∉ a) /\ (JObj d ∉ c) /\ (JObj d ∉ n)) /\
    a `sublist_of` map JObj gs /\
    c `sublist_of` a /\ n `sublist_of` a /\
    (length c + length n)%nat = length a.
Proof.
  eexists _, _, _. split; [apply classify_t1s_filter|].
  repeat split.
  - intros x Hc Hn.
    apply elem_of_select_dicts in Hc as (d & -> & _ & Hc).
    apply elem_of_select_dicts in Hn as (d' & [= <-] & _ & Hn).
    destruct (is_as d), (is_on d); discriminate.
  - intros (d & -> & Hin & Ha)%elem_of_select_dicts.
    destruct (is_on d) eqn:Ho; [left | right];
      apply elem_of_select_dicts; exists d; by rewrite Ha, ?Ho.
  - intros [H|H]; apply elem_of_select_dicts in H as (d & -> & Hin & Hp);
      apply elem_of_select_dicts; exists d;
      apply andb_true_iff in Hp as [Ha _]; done.
  - intros (d & -> & Hin & Ha)%elem_of_select_dicts.
    exists d. by rewrite <- is_as_spec.
  - intros (d & -> & Hin & Ha). apply elem_of_select_dicts.
    exists d. by rewrite is_as_spec.
  - intros (d' & [= <-] & _ & Ha)%elem_of_select_dicts.
    by apply is_as_spec in Ha.
  - intros (d' & [= <-] & _ & [Ha _]%andb_true_iff)%elem_of_select_dicts.
    by apply is_as_spec in Ha.
  - intros (d' & [= <-] & _ & [Ha _]%andb_true_iff)%elem_of_select_dicts.
    by apply is_as_spec in Ha.
  - apply select_dicts_sublist.
  - apply select_dicts_refine.
  - apply (select_dicts_refine is_as (fun d => negb (is_on d))).
  - apply select_dicts_split_length.
Qed.

(** C3. A gateway of the input whose [ha_mode] is ["ACTIVE_STANDBY"] lands
    in [compliant] exactly when it has an [enable_standby_relocation] field
    with a truthy value, and in [non_compliant] exactly when the field is
    absent or falsy; in particular a gateway without the field is
    non-compliant. *)
Theorem classify_t1s_compliance (gs : list dict) (w : world) (d : dict) :
  d ∈ gs ->
  dict_get "ha_mode" d = Some (JStr "ACTIVE_STANDBY") ->
  exists a c n : list json,
    classify_t1s (map JObj gs) w = (Ok (a, c, n), w) /\
    (JObj d ∈ c <->
       exists v, dict_get FLAG d = Some v /\ truthy v = true) /\
    (JObj d ∈ n <->
       dict_get FLAG d = None \/
       exists v, dict_get FLAG d = Some v /\ truthy v = false) /\
    (dict_get FLAG d = None -> JObj d ∈ n /\ JObj d ∉ c).
Proof.
  intros Hin Ha%is_as_spec.
  eexists _, _, _. split; [apply classify_t1s_filter|].
  assert (Hc : JObj d ∈ select_dicts (fun d => is_as d && is_on d) gs
               <-> is_on d = true).
  { rewrite elem_of_select_dicts. split.
    - intros (d' & [= <-] & _ & [_ Ho]%andb_true_iff). done.
    - intros Ho. exists d. by rewrite Ha, Ho. }
  assert (Hn : JObj d ∈ select_dicts (fun d => is_as d && negb (is_on d)) gs
               <-> is_on d = false).
  { rewrite elem_of_select_dicts. split.
    - intros (d' & [= <-] & _ & [_ Ho]%andb_true_iff).
      by destruct (is_on d).
    - intros Ho. exists d. by rewrite Ha, Ho. }
  rewrite Hc, Hn. rewrite is_on_spec. unfold is_on.
  repeat split.
  all: try done.
  - destruct (dict_get FLAG d) as [v|]; simpl; [right; eauto | by left].
  - intros [->|(v & -> & Hv)]; done.
  - by rewrite H.
  - rewrite H. intros (v & [=] & _).
Qed.


(* ===================================================================== *)
(** ** Properties of the configuration provider *)
(* ===================================================================== *)


(* ===================================================================== *)
(** ** Properties of the main flow *)
(* ===================================================================== *)

(** C5. In the trace of any run of [main]: every PUT request comes after
    the operator answered the confirmation for a selection of [n > 0]
    gateways with one of the affirmative words; if a cancellation word was
    typed at the selection prompt the trace holds no PUT; if the
    confirmation was answered with anything else than an affirmative word
    the trace holds no PUT. *)
Theorem main_put_needs_confirmation (w : world) :
  let t := trace (snd (main (fresh w))) in
  (forall i u b,
     t !! i = Some (EvHttp (HttpPut u b)) ->
     exists j n ans,
       (j < i)%nat /\
       t !! j = Some (EvInput (PromptConfirm n) (Some ans)) /\
       (0 < n)%nat /\ str_in (lower (strip ans)) YES = true) /\
  (forall l,
     EvInput PromptSelect (Some l) ∈ t ->
     str_in (lower (strip l)) CANCEL = true ->
     forall u b, EvHttp (HttpPut u b) ∉ t) /\
  (forall n ans,
     EvInput (PromptConfirm n) (Some ans) ∈ t ->
     str_in (lower (strip ans)) YES = false ->
     forall u b, EvHttp (HttpPut u b) ∉ t).
Proof.
  intros t. subst t. unfold trace.
  destruct (main_runs_guarded (fresh w)) as (new & E & G).
  simpl in E. rewrite app_nil_r in E. rewrite E. clear E.
  destruct G as [F|(post & n & ans & pre & -> & Fpost & Fpre & Hn & Hyes)].
  - assert (Hnoput : forall u b, EvHttp (HttpPut u b) ∉ rev new).
    { intros u b Hin. rewrite elem_of_rev in Hin.
      rewrite Forall_forall in F.
      by specialize (F _ Hin). }
    repeat split; try (intros; by apply Hnoput).
    intros i u b Hi. exfalso. apply (Hnoput u b).
    by apply list_elem_of_lookup_2 in Hi.
  - rewrite rev_app_distr. simpl. rewrite <- app_assoc. simpl.
    assert (Hpre : forall e, e ∈ rev pre -> before_confirm e).
    { intros e He. rewrite elem_of_rev in He.
      rewrite Forall_forall in Fpre.
      by apply Fpre. }
    assert (Hpost : forall e, e ∈ rev post -> after_confirm e).
    { intros e He. rewrite elem_of_rev in He.
      rewrite Forall_forall in Fpost.
      by apply Fpost. }
    repeat split.
    + intros i u b Hi. exists (length (rev pre)), n, ans.
      repeat split; try done.
      * destruct (decide (i < length (rev pre))%nat) as [Hlt|Hge].
        { rewrite lookup_app_l in Hi by done.
          apply list_elem_of_lookup_2, Hpre in Hi as [Hk _]. done. }
        destruct (decide (i = length (rev pre))) as [->|Hne]; [|lia].
        rewrite list_lookup_middle in Hi by done. done.
      * by rewrite list_lookup_middle.
    + intros l Hin Hc. exfalso.
      apply elem_of_app in Hin as [Hin|Hin].
      * apply Hpre in Hin as [_ Hq]. simpl in Hq. congruence.
      * apply elem_of_cons in Hin as [[=]|Hin].
        by apply Hpost in Hin.
    + intros n' ans' Hin Hno. exfalso.
      apply elem_of_app in Hin as [Hin|Hin].
      * by apply Hpre in Hin as [Hk _].
      * apply elem_of_cons in Hin as [[= -> ->]|Hin]; [congruence|].
        by apply Hpost in Hin.
Qed.

(** C6. The remediation loop over any selection never raises: it returns
    the two counters and the backup paths; the successes and the errors add
    up to the number of selected gateways; one backup path is collected per
    success; and the per-gateway GETs it issued are, in order, those of the
    ids of the selected gateways (every gateway that has an id was
    attempted, whatever happened to the ones before it). The counters and
    the paths are those of the gateways themselves: with [outcomes] the
    list that holds, per selected gateway, the backup path its update
    returned or nothing when the gateway has no id or its update raised,
    the paths collected are exactly the paths returned, in selection order,
    the success count is their number and the error count is the number of
    gateways that failed. *)
Theorem remediate_selected_counts (s : session) (base_url : string)
    (ds : list dict) (w : world) :
  exists ok ko files w' new,
    remediate_selected s base_url (map JObj ds) (O, O, []) w
      = (Ok (ok, ko, files), w') /\
    w_log w' = new ++ w_log w /\
    (ok + ko)%nat = length ds /\
    length files = ok /\
    get_requests (rev new) =
      map (fun t1_id => HttpGet (UrlTier1 base_url t1_id) [])
          (omap (dict_get "id") ds) /\
    length (outcomes s base_url ds (O, O, []) w) = length ds /\
    files = omap id (outcomes s base_url ds (O, O, []) w) /\
    ko = length (List.filter failed (outcomes s base_url ds (O, O, []) w)).
Proof.
  destruct (remediate_selected_total s base_url ds O O [] w)
    as (ok & ko & files & new & R & E & Hlen & Hfiles & G).
  destruct (remediate_selected_outcomes s base_url ds O O [] w)
    as [Rout Hout].
  destruct (remediate_selected s base_url (map JObj ds) (O, O, []) w)
    as [r w'] eqn:H. simpl in R, E, Rout. subst r.
  injection Rout as Hok Hko Hf. simpl in Hf.
  exists ok, ko, files, w', new. repeat split; try done.
Qed.

(* ===================================================================== *)
(** ** Properties of the remediator *)
(* ===================================================================== *)

(** C1. When the per-gateway GET returns [O] and the call succeeds, [O] is
    an object, and what the call did is, in order: announce and send the
    GET, create the backup directory if it was missing, write the backup
    file with [O] exactly as fetched, send one PUT whose body is [O] with
    [enable_standby_relocation] set to the desired value, and report. In
    that body the flag holds the desired value, every other key holds what
    it held in [O], and the keys are those of [O] in the same order (the
    flag is appended when [O] did not have it). The returned path is the
    one the backup was written to. *)
Theorem update_t1_relocation_round_trip (s : session) (base_url : string)
    (t1_id : json) (v : bool) (dir : string) (w w' : world)
    (st : Z) (O : json) (rest : list reply)
    (r : Z * option json) (path : backup_path) :
  w_net w = Resp st (Some O) :: rest ->
  update_t1_relocation s base_url t1_id v dir w = (Ok (r, path), w') ->
  exists d body,
    O = JObj d /\
    body = dict_set FLAG (JBool v) d /\
    path = BackupPath dir (default (JStr "unknown") (dict_get "id" d))
             (w_now w (w_ticks w)) /\
    trace w' =
      trace w ++
      [EvPrint (MsgGet t1_id); EvHttp (HttpGet (UrlTier1 base_url t1_id) [])]
      ++ (if bool_decide (dir ∈ w_dirs w) then []
          else [EvMkdir dir; EvPrint (MsgDirCreated dir)])
      ++ [EvWrite path (JObj d); EvPrint (MsgBackupSaved path);
          EvPrint (MsgPut t1_id);
          EvHttp (HttpPut (UrlTier1 base_url t1_id) (JObj body));
          EvPrint (MsgUpdated t1_id v)] /\
    dict_get FLAG body = Some (JBool v) /\
    (forall k, k <> FLAG -> dict_get k body = dict_get k d) /\
    dict_keys body =
      match dict_get FLAG d with
      | Some _ => dict_keys d
      | None => dict_keys d ++ [FLAG]
      end.
Proof.
  intros Hnet H.
  unfold update_t1_relocation, get_t1_full_config, save_t1_backup in H.
  unfold bind, print, send, raise_for_status, resp_json, path_exists,
    makedirs, now_stamp, write_json, ret, raise in H.
  simpl in H. rewrite Hnet in H. simpl in H.
  destruct (is_error_status st); simpl in H; [discriminate|].
  destruct O as [| | | | |d]; simpl in H; try (by destruct (bool_decide _)).
  exists d, (dict_set FLAG (JBool v) d).
  assert (Hframe :
    dict_get FLAG (dict_set FLAG (JBool v) d) = Some (JBool v) /\
    (forall k, k <> FLAG ->
       dict_get k (dict_set FLAG (JBool v) d) = dict_get k d) /\
    dict_keys (dict_set FLAG (JBool v) d) =
      match dict_get FLAG d with
      | Some _ => dict_keys d
      | None => dict_keys d ++ [FLAG]
      end).
  { split; [apply dict_get_set_eq|].
    split; [intros k Hk; by apply dict_get_set_ne | apply dict_keys_set]. }
  unfold trace.
  destruct (bool_decide (dir ∈ w_dirs w)); simpl in H;
    destruct rest as [|[|st2 body2] rest]; simpl in H; try discriminate;
    destruct (is_error_status st2); simpl in H; try discriminate;
    injection H as <- <- <-; simpl;
    repeat split; try apply Hframe;
    by rewrite <- ?app_assoc.
Qed.


(* ===================================================================== *)
(** ** Properties of the lister *)
(* ===================================================================== *)

(** C4, as the code has it. The replies to the listing requests are
    [pages], each of which is a page that carries a truthy cursor, then
    [last], which is a page without cursor (or with a falsy one) or a reply
    on which the turn raises. Then the lister sends one request per reply,
    the first without cursor and each next one with the cursor of the page
    before; it consumes exactly these replies; if [last] is a page, it
    returns the items of all pages in the order served; if [last] is not,
    the call raises and returns no gateway at all, whatever the pages
    before held. In particular it raises [HTTPError] when the status of
    [last] is in the 4xx or 5xx class. *)
Theorem list_tier1_gateways_follows_cursor (s : session) (base_url : string)
    (w : world) (pages : list reply) (views : list (list json * json))
    (last : reply) (rest : list reply) :
  w_net w = pages ++ last :: rest ->
  mapM page_view pages = Some views ->
  forallb (fun v => truthy (snd v)) views = true ->
  from_option (fun v => negb (truthy (snd v))) true (page_view last) = true ->
  let run := list_tier1_gateways s base_url w in
  let u := UrlTier1s base_url in
  trace (snd run) =
    trace w ++
    map EvHttp
      (HttpGet u [] :: map (fun v => HttpGet u [("cursor", snd v)]) views) /\
  w_net (snd run) = rest /\
  fst run =
    match page_view last with
    | Some (items, _) => Ok (concat (map fst views) ++ items)
    | None => Raise (page_error last)
    end /\
  (forall st body,
     last = Resp st body -> is_error_status st = true ->
     fst run = Raise (HTTPError st)).
Proof.
  intros Hnet Hviews%mapM_Some Htruthy Hlast run u.
  assert (Ht : Forall (fun v => truthy (snd v) = true) views).
  { apply Forall_forall. intros v Hv.
    rewrite forallb_forall in Htruthy. apply Htruthy.
    by apply list_elem_of_In. }
  assert (Hl : match page_view last with
               | Some (_, c) => truthy c = false
               | None => True
               end).
  { destruct (page_view last) as [[items c]|]; simpl in *; [|done].
    by destruct (truthy c). }
  destruct (list_pages_run s u pages views last rest Hviews Ht Hl
              (length (w_net w)) JNull [] w Hnet)
    as (R & N & _ & T).
  { rewrite Hnet, length_app. lia. }
  subst run. unfold list_tier1_gateways. fold u.
  repeat split.
  - rewrite T. f_equal. simpl. f_equal. f_equal.
    clear -Ht. induction Ht as [|v views Hv Ht IH]; simpl; [done|].
    unfold list_request at 1. by rewrite Hv, IH.
  - done.
  - done.
  - intros st body -> Hst. rewrite R. simpl.
    destruct body as [[| | | | |d]|]; simpl; by rewrite ?Hst.
Qed.



(* ===================================================================== *)
(** ** Properties of the selector *)
(* ===================================================================== *)



(** C7. For a non-empty bucket. When the selector returns, its outcome was
    decided by the last line it read: if it returns the empty selection
    that line was one of [exit], [q], [quit], [cancel]; if the line was
    neither such a word nor [all]/[a]/[*], the selection is what the tokens
    of the line matched, it is not empty, and it holds no gateway twice
    (no element equals an earlier one under [==]). And a line whose tokens
    match nothing is not answered with a selection: after the notes on the
    unknown names the selector reports the failure and prompts again, and
    its result and the input it leaves are those of a run on the lines
    that follow. *)
Theorem select_empty_only_on_cancel (nc : list json) :
  nc <> [] ->
  (forall (w w' : world) (sel : list json),
     select_t1s_to_modify nc w = (Ok sel, w') ->
     exists m line notes earlier,
       fst (build_t1_map nc ∅ w) = Ok m /\
       w_log w' =
         notes ++ EvInput PromptSelect (Some line) :: earlier ++ w_log w /\
       Forall (of_kinds [KPrint]) notes /\
       (sel = [] -> str_in (lower (strip line)) CANCEL = true) /\
       (str_in (lower (strip line)) CANCEL = false ->
        str_in (lower (strip line)) ALL = false ->
        sel = fst (pick m (tokens line) [] []) /\ sel <> [] /\
        distinct sel)) /\
  (forall (w : world) (m : gmap string json) (line : string)
          (rest : list string),
     w_stdin w = line :: rest ->
     fst (build_t1_map nc ∅ w) = Ok m ->
     str_in (lower (strip line)) CANCEL = false ->
     str_in (lower (strip line)) ALL = false ->
     fst (pick m (tokens line) [] []) = [] ->
     let run := select_t1s_to_modify nc w in
     let run' := select_t1s_to_modify nc (set_stdin rest w) in
     fst run = fst run' /\
     w_stdin (snd run) = w_stdin (snd run') /\
     exists notes later,
       trace (snd run) =
         trace w ++
         [EvPrint MsgSelectMenu; EvInput PromptSelect (Some line)] ++
         notes ++
         [EvPrint MsgNoValidSelection; EvInput PromptSelect (head rest)] ++
         later /\
       Forall (of_kinds [KPrint]) notes).
Proof.
  intros Hnc. split.
  - intros w w' sel H.
    destruct (fst (build_t1_map nc ∅ w)) as [m|e] eqn:Hm.
    2: { rewrite (select_raises _ e) in H by done. discriminate. }
    rewrite (select_unfold _ m) in H by done.
    apply select_loop_returns in H
      as (line & notes & earlier & E & F & C).
    exists m, line, notes, (earlier ++ [EvPrint MsgSelectMenu]).
    split; [done|]. split; [by rewrite E, <- app_assoc|].
    split; [done|]. split.
    + intros ->.
      destruct C as [[Hc _]|[(_ & _ & Hs)|(_ & _ & _ & Hs)]]; done.
    + intros Hc Ha.
      destruct C as [[Hc' _]|[(_ & Ha' & _)|(_ & _ & -> & Hs)]];
        try congruence.
      repeat split; [done|]. apply pick_distinct, distinct_nil.
  - intros w m line rest Hin Hm Hc Ha Hzero run run'. subst run run'.
    assert (Hm' : fst (build_t1_map nc ∅ (set_stdin rest w)) = Ok m).
    { destruct (build_t1_map_pure nc ∅) as [r Hr].
      rewrite Hr in Hm. by rewrite Hr. }
    rewrite (select_unfold nc m w), (select_unfold nc m (set_stdin rest w))
      by done.
    rewrite Hin. simpl length.
    rewrite (select_loop_step (S _) nc m (log _ w)). simpl w_stdin.
    rewrite Hin. cbv zeta. rewrite Hc, Ha, Hzero.
    match goal with |- context [select_loop _ nc m ?w2] =>
      set (w2' := w2) end.
    destruct (select_loop_stdin (length rest) nc m w2'
                (log (EvPrint MsgSelectMenu) (set_stdin rest w)))
      as [Hr Hs].
    { subst w2'. by destruct (snd (pick m (tokens line) [] [])). }
    split; [done|]. split; [done|].
    destruct (select_loop_asks (length rest) nc m w2') as [later Hl].
    unfold trace. rewrite Hl.
    assert (Hrest : w_stdin w2' = rest).
    { subst w2'. by destruct (snd (pick m (tokens line) [] [])). }
    rewrite Hrest.
    destruct (snd (pick m (tokens line) [] [])) as [|x nf] eqn:Enf.
    + exists [], (rev later). subst w2'. simpl.
      rewrite rev_app_distr. simpl. split; [|done].
      by rewrite <- !app_assoc.
    + exists [EvPrint (MsgNotFound (x :: nf))], (rev later). subst w2'. simpl.
      rewrite rev_app_distr. simpl. split; [|by repeat constructor].
      by rewrite <- !app_assoc.
Qed.





(* ===================================================================== *)
(** ** Further properties: the remediator *)
(* ===================================================================== *)

Ltac run_update H :=
  unfold update_t1_relocation, get_t1_full_config, save_t1_backup in H;
  unfold bind, print, send, raise_for_status, resp_json, path_exists,
    makedirs, now_stamp, write_json, ret, raise in H;
  simpl in H.






(** X3. When the GET fails (no answer, a 4xx/5xx status, or a body that
    is not JSON), the remediation raises right after the GET: no directory
    is created, no backup is written, no PUT is sent and the clock is not
    read. *)
Theorem update_t1_relocation_get_fails (s : session) (base_url : string)
    (t1_id : json) (v : bool) (dir : string) (w : world) :
  get_fails (w_net w) = true ->
  let run := update_t1_relocation s base_url t1_id v dir w in
  (exists e, fst run = Raise e) /\
  trace (snd run) =
    trace w ++
    [EvPrint (MsgGet t1_id); EvHttp (HttpGet (UrlTier1 base_url t1_id) [])]
  /\ w_dirs (snd run) = w_dirs w
  /\ w_ticks (snd run) = w_ticks w.
Proof.
  intros Hf run.
  assert (H : run = run) by done. unfold run at 2 in H. run_update H.
  unfold get_fails in Hf. unfold trace.
  destruct (w_net w) as [|[|st [body|]] rs]; simpl in H.
  - rewrite H. simpl. rewrite <- app_assoc. eauto.
  - rewrite H. simpl. rewrite <- app_assoc. eauto.
  - rewrite orb_false_r in Hf. rewrite Hf in H. simpl in H.
    rewrite H. simpl. rewrite <- app_assoc. eauto.
  - destruct (is_error_status st); simpl in H; rewrite H; simpl;
      rewrite <- app_assoc; eauto.
Qed.





(** X6. Handed something that is not an object, the backup raises
    [AttributeError] and writes no file, but only after it has created the
    backup directory when that was missing. *)
Theorem save_t1_backup_not_an_object (x : json) (dir : string) (w : world) :
  is_obj x = false ->
  let run := save_t1_backup x dir w in
  fst run = Raise AttributeError /\
  trace (snd run) =
    trace w ++ (if bool_decide (dir ∈ w_dirs w) then []
                else [EvMkdir dir; EvPrint (MsgDirCreated dir)]) /\
  dir ∈ w_dirs (snd run) /\
  w_ticks (snd run) = w_ticks w.
Proof. clear strip lower.
  intros Hx run. subst run.
  unfold save_t1_backup, bind, print, path_exists, makedirs, trace. simpl.
  destruct (bool_decide (dir ∈ w_dirs w)) eqn:Hd; simpl;
    destruct x; try discriminate Hx; simpl; repeat split;
    try (by rewrite app_nil_r); try (by rewrite <- app_assoc).
  all: first [ by apply bool_decide_eq_true in Hd | set_solver ].
Qed.


(* ===================================================================== *)
(** ** Further properties: the classifier *)
(* ===================================================================== *)

Lemma classify_loop_objects (l : list json) (acc : buckets) (w : world) :
  (forallb is_obj l = false ->
   classify_loop l acc w = (Raise AttributeError, w)) /\
  (forallb is_obj l = true ->
   exists b, classify_loop l acc w = (Ok b, w)).
Proof.
  revert acc. induction l as [|t1 rest IH]; intros [[a c] n]; simpl.
  - split; [done | by eexists].
  - destruct t1 as [| | | | |d]; simpl; try (split; [done|discriminate]).
    unfold bind. simpl.
    destruct (py_eq (default JNull (dict_get "ha_mode" d))
                (JStr "ACTIVE_STANDBY")); [|apply IH].
    destruct (truthy (default (JBool false) (dict_get FLAG d))); apply IH.
Qed.

(** X7. The classifier raises exactly when the list holds something that
    is not an object, and then it raises [AttributeError]; on a list of
    objects it returns buckets. Either way it leaves the world as it was. *)
Theorem classify_t1s_raises_iff_not_object (l : list json) (w : world) :
  snd (classify_t1s l w) = w /\
  (fst (classify_t1s l w) = Raise AttributeError <->
   forallb is_obj l = false) /\
  ((exists b, fst (classify_t1s l w) = Ok b) <-> forallb is_obj l = true).
Proof.
  unfold classify_t1s.
  destruct (classify_loop_objects l ([], [], []) w) as [Hbad Hgood].
  destruct (forallb is_obj l) eqn:E.
  - destruct (Hgood eq_refl) as [b ->]. simpl.
    repeat split; try done; eauto.
  - rewrite (Hbad eq_refl). simpl.
    repeat split; try done. by intros [b Hb].
Qed.

(** X8. Classifying two lists of gateway records one after the other and
    joining the buckets gives what classifying the joined list gives: the
    buckets do not depend on how the gateways were paged. *)
Theorem classify_t1s_app (gs1 gs2 : list dict) (w : world) :
  exists a1 c1 n1 a2 c2 n2 : list json,
    classify_t1s (map JObj gs1) w = (Ok (a1, c1, n1), w) /\
    classify_t1s (map JObj gs2) w = (Ok (a2, c2, n2), w) /\
    classify_t1s (map JObj (gs1 ++ gs2)) w
      = (Ok (a1 ++ a2, c1 ++ c2, n1 ++ n2), w).
Proof.
  eexists _, _, _, _, _, _.
  split; [apply classify_t1s_filter|].
  split; [apply classify_t1s_filter|].
  rewrite classify_t1s_filter. unfold select_dicts.
  by rewrite !List.filter_app, !map_app.
Qed.

(* ===================================================================== *)
(** ** Further properties: the report *)
(* ===================================================================== *)

Lemma print_details_cons (d : dict) (rest : list json) (w : world) :
  print_details (JObj d :: rest) w =
  if printable d then print_details rest (log (detail_line d) w)
  else (Raise TypeError, w).
Proof.
  simpl. unfold bind, printable, detail_line. simpl.
  destruct (default (JStr "") (dict_get "display_name" d)); simpl; try done;
    destruct (default JNull (dict_get "id" d)); simpl; done.
Qed.

Lemma print_details_lines (good : list dict) (tail : list json) (w : world) :
  forallb printable good = true ->
  print_details (map JObj good ++ tail) w =
  print_details tail
    (World (w_environ w) (w_stdin w) (w_net w) (w_now w) (w_ticks w)
       (w_dirs w) (rev (map detail_line good) ++ w_log w)).
Proof.
  revert w. induction good as [|d good IH]; intros w Hp; simpl map.
  - by destruct w.
  - simpl in Hp. apply andb_true_iff in Hp as [Hd Hp].
    simpl app. rewrite print_details_cons, Hd, IH by done.
    simpl. by rewrite <- app_assoc.
Qed.

Lemma print_details_all (ds : list dict) (w : world) :
  forallb printable ds = true ->
  print_details (map JObj ds) w =
  (Ok tt,
   World (w_environ w) (w_stdin w) (w_net w) (w_now w) (w_ticks w)
     (w_dirs w) (rev (map detail_line ds) ++ w_log w)).
Proof.
  intros Hp. rewrite <- (app_nil_r (map JObj ds)).
  by rewrite print_details_lines.
Qed.

Lemma print_details_stops (good : list dict) (bad : dict) (rest : list dict)
    (w : world) :
  forallb printable good = true ->
  printable bad = false ->
  print_details (map JObj (good ++ bad :: rest)) w =
  (Raise TypeError,
   World (w_environ w) (w_stdin w) (w_net w) (w_now w) (w_ticks w)
     (w_dirs w) (rev (map detail_line good) ++ w_log w)).
Proof.
  intros Hg Hb. rewrite map_app. simpl map.
  rewrite print_details_lines by done.
  by rewrite print_details_cons, Hb.
Qed.

Lemma print_report_nonempty (t1_list act ok : list json) (x : json)
    (xs : list json) (w : world) :
  print_report t1_list act ok (x :: xs) w =
  match print_details (x :: xs)
          (log (EvPrint MsgDetailHeader)
             (log (EvPrint (MsgReport (length t1_list) (length act)
                              (length ok) (length (x :: xs)))) w)) with
  | (Ok _, w2) =>
      (Ok tt, log (EvPrint (MsgDetailFooter (length (x :: xs)))) w2)
  | (Raise e, w2) => (Raise e, w2)
  end.
Proof. reflexivity. Qed.

Lemma print_report_nonnil (t1_list act ok nc : list json) (w : world) :
  nc <> [] ->
  print_report t1_list act ok nc w =
  match print_details nc
          (log (EvPrint MsgDetailHeader)
             (log (EvPrint (MsgReport (length t1_list) (length act)
                              (length ok) (length nc))) w)) with
  | (Ok _, w2) => (Ok tt, log (EvPrint (MsgDetailFooter (length nc))) w2)
  | (Raise e, w2) => (Raise e, w2)
  end.
Proof. intros H. destruct nc; [done | apply print_report_nonempty]. Qed.

(** X9. When the display name and the id of every non-compliant gateway
    can be formatted, the report does not raise and prints, in order: the
    four counts, then either the all-compliant line (no non-compliant
    gateway) or the table header, one line per non-compliant gateway in
    bucket order, and the footer with their number. *)
Theorem print_report_table (t1_list act ok : list json) (ds : list dict)
    (w : world) :
  forallb printable ds = true ->
  let run := print_report t1_list act ok (map JObj ds) w in
  fst run = Ok tt /\
  trace (snd run) =
    trace w ++
    EvPrint (MsgReport (length t1_list) (length act) (length ok) (length ds))
    :: match ds with
       | [] => [EvPrint MsgAllCompliant]
       | _ => EvPrint MsgDetailHeader :: map detail_line ds
              ++ [EvPrint (MsgDetailFooter (length ds))]
       end.
Proof.
  intros Hp run. subst run. unfold trace.
  destruct ds as [|d ds].
  { unfold print_report. simpl. split; [done | by rewrite <- app_assoc]. }
  change (map JObj (d :: ds)) with (JObj d :: map JObj ds).
  rewrite print_report_nonempty.
  change (JObj d :: map JObj ds) with (map JObj (d :: ds)).
  rewrite print_details_all by done.
  cbn [fst snd w_log log]. rewrite length_map. split; [done|].
  cbn [rev]. rewrite !rev_app_distr, rev_involutive. cbn [rev app].
  by rewrite <- !app_assoc.
Qed.


(** X10. When a non-compliant gateway has no id, or an id or display name
    that takes no width (null, a list, an object), the report raises
    [TypeError] at that gateway: the counts, the header and the lines of
    the gateways before it have been printed, nothing after. *)
Theorem print_report_unprintable (t1_list act ok : list json)
    (good : list dict) (bad : dict) (rest : list dict) (w : world) :
  forallb printable good = true ->
  printable bad = false ->
  let nc := map JObj (good ++ bad :: rest) in
  let run := print_report t1_list act ok nc w in
  fst run = Raise TypeError /\
  trace (snd run) =
    trace w ++
    [EvPrint (MsgReport (length t1_list) (length act) (length ok)
                (length nc));
     EvPrint MsgDetailHeader] ++ map detail_line good.
Proof.
  intros Hg Hb nc run. subst run. unfold trace.
  rewrite print_report_nonnil by (subst nc; by destruct good).
  subst nc. rewrite print_details_stops by done.
  cbn [fst snd w_log log]. split; [done|].
  rewrite !rev_app_distr, rev_involutive. cbn [rev app].
  by rewrite <- !app_assoc.
Qed.


(* ===================================================================== *)
(** ** Further properties: the selector *)
(* ===================================================================== *)

Lemma pick_keeps (m : gmap string json) (names : list string)
    (sel : list json) (nf : list string) :
  (length sel <= length (fst (pick m names sel nf)))%nat.
Proof.
  revert sel nf. induction names as [|name names IH]; intros sel nf;
    [done|]. rewrite pick_cons.
  destruct (m !! lower name) as [t|]; [|apply IH].
  destruct (py_in t sel); [apply IH|].
  etransitivity; [|apply IH]. rewrite length_app. simpl. lia.
Qed.

Lemma pick_not_found_from (m : gmap string json) (names : list string)
    (sel : list json) (nf : list string) :
  snd (pick m names sel nf) =
  nf ++ List.filter (fun n => bool_decide (m !! lower n = None)) names.
Proof.
  revert sel nf. induction names as [|name names IH]; intros sel nf.
  - simpl. by rewrite app_nil_r.
  - rewrite pick_cons. simpl.
    destruct (m !! lower name) as [t|] eqn:E.
    + rewrite bool_decide_eq_false_2 by done.
      destruct (py_in t sel); apply IH.
    + rewrite bool_decide_eq_true_2 by done.
      rewrite IH. by rewrite <- app_assoc.
Qed.

Lemma pick_nothing (m : gmap string json) (names : list string)
    (nf : list string) :
  fst (pick m names [] nf) = [] <->
  Forall (fun n => m !! lower n = None) names.
Proof.
  revert nf. induction names as [|name names IH]; intros nf.
  - split; [by constructor | done].
  - rewrite pick_cons. destruct (m !! lower name) as [t|] eqn:E.
    + simpl. split.
      * intros H. pose proof (pick_keeps m names [t] nf) as Hl.
        rewrite H in Hl. simpl in Hl. lia.
      * intros H. apply Forall_cons in H as [H _]. congruence.
    + rewrite IH. split; [by constructor|].
      intros H. by apply Forall_cons in H as [_ H].
Qed.

(** X11. The tokens of one answer against the lookup table: the names
    reported as not found are exactly the tokens that are no key of the
    table (after lower-casing), in the order typed; and the selection comes
    out empty, which makes the selector ask again, exactly when no token is
    a key. *)
Theorem pick_not_found (m : gmap string json) (names : list string) :
  snd (pick m names [] []) =
    List.filter (fun n => bool_decide (m !! lower n = None)) names /\
  (fst (pick m names [] []) = [] <->
   Forall (fun n => m !! lower n = None) names).
Proof.
  split; [by rewrite pick_not_found_from | apply pick_nothing].
Qed.

Lemma build_t1_map_values (l : list json) (m0 m : gmap string json)
    (w w' : world) :
  build_t1_map l m0 w = (Ok m, w') ->
  forall k t, m !! k = Some t -> t ∈ l \/ m0 !! k = Some t.
Proof.
  revert m0. induction l as [|t1 rest IH]; intros m0; simpl.
  - intros [= <- <-]. eauto.
  - unfold bind. destruct t1 as [| | | | |d]; try discriminate. simpl.
    destruct (default (JStr "") (dict_get "display_name" d)) as [| | |n| |];
      try discriminate. simpl.
    destruct (default (JStr "") (dict_get "id" d)) as [| | |i| |];
      try discriminate. simpl.
    intros H k t Hk.
    destruct (IH _ H k t Hk) as [Hin|Hlook].
    + left. by apply list_elem_of_further.
    + apply lookup_insert_Some in Hlook as [[_ <-]|[_ Hlook]];
        [left; apply list_elem_of_here|].
      destruct (String.eqb (lower n) ""); [by right|].
      apply lookup_insert_Some in Hlook as [[_ <-]|[_ Hlook]];
        [left; apply list_elem_of_here | by right].
Qed.

Lemma pick_values (m : gmap string json) (names : list string)
    (sel : list json) (nf : list string) (t : json) :
  t ∈ fst (pick m names sel nf) ->
  t ∈ sel \/ exists k, m !! k = Some t.
Proof.
  revert sel nf. induction names as [|name names IH]; intros sel nf;
    [by left|]. rewrite pick_cons.
  destruct (m !! lower name) as [t1|] eqn:E; [|apply IH].
  destruct (py_in t1 sel); [apply IH|].
  intros H. apply IH in H as [H|H]; [|by right].
  apply elem_of_app in H as [H|H]; [by left|].
  apply list_elem_of_singleton in H as ->. right. eauto.
Qed.

Lemma select_subset (nc : list json) (w w' : world) (sel : list json) :
  select_t1s_to_modify nc w = (Ok sel, w') ->
  forall t, t ∈ sel -> t ∈ nc.
Proof.
  intros H t Ht.
  destruct (build_t1_map nc ∅ w) as [[m|e] w1] eqn:Hm.
  2: { rewrite (select_raises _ e) in H by (by rewrite Hm). discriminate. }
  rewrite (select_unfold _ m) in H by (by rewrite Hm).
  apply select_loop_returns in H as (line & notes & earlier & _ & _ & C).
  destruct C as [[_ ->]|[(_ & _ & ->)|(_ & _ & -> & _)]].
  - by apply elem_of_nil in Ht.
  - done.
  - apply pick_values in Ht as [Ht|[k Hk]]; [by apply elem_of_nil in Ht|].
    by destruct (build_t1_map_values _ _ _ _ _ Hm k t Hk)
      as [Hin|Hlook]; [|rewrite lookup_empty in Hlook].
Qed.

(** X12. Whatever the operator types, every gateway the selector returns
    is one of the bucket it was given. *)
Theorem select_returns_bucket_members (nc : list json) (w w' : world)
    (sel : list json) :
  select_t1s_to_modify nc w = (Ok sel, w') ->
  Forall (fun t => t ∈ nc) sel.
Proof.
  intros H. apply Forall_forall. intros t Ht.
  by apply (select_subset nc w w' sel).
Qed.


Lemma select_loop_exhausts (fuel : nat) (nc : list json)
    (m : gmap string json) (w : world) :
  (length (w_stdin w) <= fuel)%nat ->
  forallb (rejected m) (w_stdin w) = true ->
  fst (select_loop fuel nc m w) = Raise EOFError /\
  w_stdin (snd (select_loop fuel nc m w)) = [].
Proof.
  revert w. induction fuel as [|fuel IH]; intros w Hlen Hrej;
    rewrite select_loop_step;
    destruct (w_stdin w) as [|line ls] eqn:E; simpl in Hlen; try lia;
    try done.
  simpl in Hrej. apply andb_true_iff in Hrej as [Hline Hrej].
  unfold rejected in Hline.
  apply andb_true_iff in Hline as [[Hc Ha]%andb_true_iff Hp].
  apply negb_true_iff in Hc, Ha. cbv zeta. rewrite Hc, Ha.
  destruct (fst (pick m (tokens line) [] [])); [|done].
  apply IH; destruct (snd (pick m (tokens line) [] [])); simpl;
    first [lia | done].
Qed.

(** X21. When the table is built and the operator's input runs out after
    lines that are all rejected (no known word, no token that is a key),
    the selector does not return a selection: it has read every line and
    raises [EOFError]. *)
Theorem select_raises_at_end_of_input (nc : list json)
    (m : gmap string json) (w : world) :
  fst (build_t1_map nc ∅ w) = Ok m ->
  forallb (rejected m) (w_stdin w) = true ->
  fst (select_t1s_to_modify nc w) = Raise EOFError /\
  w_stdin (snd (select_t1s_to_modify nc w)) = [].
Proof.
  intros Hm Hrej. rewrite (select_unfold nc m w) by done.
  by apply select_loop_exhausts.
Qed.


(* ===================================================================== *)
(** ** Further properties: the configuration provider *)
(* ===================================================================== *)

(** X13. When the three variables are set and not empty, the triple holds
    their values exactly as set (not stripped), nothing is asked and no
    input is read: the world is left as it was. *)
Theorem get_config_all_set (w : world) (m u p : string) :
  w_environ w !! "NSX_MANAGER" = Some m ->
  w_environ w !! "NSX_USERNAME" = Some u ->
  w_environ w !! "NSX_PASSWORD" = Some p ->
  m <> "" -> u <> "" -> p <> "" ->
  get_config_from_env_or_prompt w = (Ok (m, u, p), w).
Proof.
  intros Hm Hu Hp Nm Nu Np.
  rewrite get_config_unfold, Hm, Hu, Hp.
  unfold config_with, unless_set, bind, ret.
  by destruct m, u, p.
Qed.


(** X14. With at least three lines of input to come, the configuration
    provider returns a triple and asks exactly for the variables that are
    absent or empty, in the order manager, user name, password; it reads
    one line per variable asked. *)
Theorem get_config_prompts (w : world) :
  (3 <= length (w_stdin w))%nat ->
  let run := get_config_from_env_or_prompt w in
  let blanks :=
    asks (w_environ w !! "NSX_MANAGER") PromptManager ++
    asks (w_environ w !! "NSX_USERNAME") PromptUsername ++
    asks (w_environ w !! "NSX_PASSWORD") PromptPassword in
  (exists cfg, fst run = Ok cfg) /\
  prompts_of (trace (snd run)) = prompts_of (trace w) ++ blanks /\
  w_stdin (snd run) = drop (length blanks) (w_stdin w).
Proof.
  intros Hlen run blanks. subst run blanks.
  rewrite get_config_unfold.
  destruct w as [env stdin net now ticks dirs lg]. simpl in *.
  destruct stdin as [|l1 [|l2 [|l3 stdin]]]; simpl in Hlen; try lia.
  unfold config_with, unless_set, bind, input, ret, asks, blank, trace,
    prompts_of. simpl.
  destruct (env !! "NSX_MANAGER") as [[|? ?]|],
           (env !! "NSX_USERNAME") as [[|? ?]|],
           (env !! "NSX_PASSWORD") as [[|? ?]|]; simpl;
    repeat split; eauto;
    rewrite ?omap_app; simpl; rewrite <- ?app_assoc; try done;
    by rewrite app_nil_r.
Qed.


(* ===================================================================== *)
(** ** Further properties: the remediation loop *)
(* ===================================================================== *)

Lemma remediate_selected_no_ids (s : session) (base_url : string)
    (ds : list dict) (ok ko : nat) (files : list backup_path) (w : world) :
  forallb (fun d => negb (has_id d)) ds = true ->
  remediate_selected s base_url (map JObj ds) (ok, ko, files) w =
  (Ok (ok, (ko + length ds)%nat, files),
   World (w_environ w) (w_stdin w) (w_net w) (w_now w) (w_ticks w)
     (w_dirs w)
     (map (fun _ => EvPrint (MsgGenericError JNull KeyError)) ds
        ++ w_log w)).
Proof.
  revert ko w. induction ds as [|d ds IH]; intros ko w Hno.
  - simpl. rewrite Nat.add_0_r. by destruct w.
  - simpl in Hno. apply andb_true_iff in Hno as [Hd Hno].
    unfold has_id in Hd. destruct (dict_get "id" d) eqn:Hid; [done|].
    pose proof (remediate_one_without_id s base_url d ok ko files w Hid)
      as H1.
    cbn [map remediate_selected]. rewrite (bind_ok _ _ _ _ _ H1).
    rewrite IH by done. simpl. f_equal.
    + do 3 f_equal. lia.
    + f_equal. clear. induction ds as [|d' ds IH]; simpl; [done|].
      by rewrite <- IH.
Qed.

(** X15. When no selected gateway has an id, the loop counts one error per
    gateway and no success, collects no backup, and sends nothing: the
    replies of the manager are untouched and the trace grows by one error
    line per gateway. *)
Theorem remediate_selected_without_ids (s : session) (base_url : string)
    (ds : list dict) (w : world) :
  forallb (fun d => negb (has_id d)) ds = true ->
  let run := remediate_selected s base_url (map JObj ds) (O, O, []) w in
  fst run = Ok (O, length ds, []) /\
  w_net (snd run) = w_net w /\
  trace (snd run) =
    trace w ++ map (fun _ => EvPrint (MsgGenericError JNull KeyError)) ds.
Proof.
  intros Hno run. subst run.
  rewrite remediate_selected_no_ids by done. simpl.
  repeat split. unfold trace. simpl. rewrite rev_app_distr. f_equal.
  clear. induction ds as [|d ds IH]; simpl; [done|].
  rewrite IH. clear. induction ds as [|d ds IH]; simpl; [done|].
  by rewrite <- IH.
Qed.






(* ===================================================================== *)
(** ** Further properties: the main flow *)
(* ===================================================================== *)

Lemma guarded_precedes (new : list event) (i : nat) (e : event) :
  guarded new ->
  rev new !! i = Some e ->
  kind_of e = KPut \/ kind_of e = KFile ->
  exists j n ans,
    (j < i)%nat /\
    rev new !! j = Some (EvInput (PromptConfirm n) (Some ans)) /\
    (0 < n)%nat /\ str_in (lower (strip ans)) YES = true.
Proof.
  intros [F|(post & n & ans & pre & -> & Fpost & Fpre & Hn & Hyes)] Hi Hk.
  - exfalso. apply list_elem_of_lookup_2 in Hi. rewrite elem_of_rev in Hi.
    rewrite Forall_forall in F. specialize (F _ Hi).
    destruct Hk as [Hk|Hk]; unfold without_put, of_kinds in F;
      rewrite Hk in F; discriminate.
  - revert Hi. rewrite rev_app_distr. simpl. rewrite <- app_assoc. simpl.
    intros Hi. exists (length (rev pre)), n, ans.
    repeat split; try done; [|by rewrite list_lookup_middle].
    destruct (decide (i < length (rev pre))%nat) as [Hlt|Hge].
    { rewrite lookup_app_l in Hi by done.
      apply list_elem_of_lookup_2 in Hi. rewrite elem_of_rev in Hi.
      rewrite Forall_forall in Fpre. destruct (Fpre _ Hi) as [Hb _].
      exfalso. destruct Hk as [Hk|Hk]; unfold of_kinds in Hb;
        rewrite Hk in Hb; discriminate. }
    destruct (decide (i = length (rev pre))) as [->|Hne]; [|lia].
    rewrite list_lookup_middle in Hi by done. injection Hi as <-.
    exfalso. by destruct Hk.
Qed.

(** X17. In the trace of any run of [main], every directory created and
    every backup file written comes after the operator answered the
    confirmation for a selection of at least one gateway with an
    affirmative word: a run that is cancelled or not confirmed leaves the
    file system as it found it. *)
Theorem main_backup_needs_confirmation (w : world) (i : nat) (e : event) :
  trace (snd (main (fresh w))) !! i = Some e ->
  kind_of e = KFile ->
  exists j n ans,
    (j < i)%nat /\
    trace (snd (main (fresh w))) !! j
      = Some (EvInput (PromptConfirm n) (Some ans)) /\
    (0 < n)%nat /\ str_in (lower (strip ans)) YES = true.
Proof.
  unfold trace.
  destruct (main_runs_guarded (fresh w)) as (new & E & G).
  simpl in E. rewrite app_nil_r in E. rewrite E.
  intros Hi Hk. eapply guarded_precedes; eauto.
Qed.


Lemma objects_are_dicts (l : list json) :
  forallb is_obj l = true -> exists ds, l = map JObj ds.
Proof.
  induction l as [|x l IH]; simpl; [by exists []|].
  intros [Hx Hl]%andb_true_iff. destruct x as [| | | | |d]; try done.
  destruct (IH Hl) as [ds ->]. by exists (d :: ds).
Qed.

Lemma forallb_is_obj_map (ds : list dict) :
  forallb is_obj (map JObj ds) = true.
Proof. by induction ds. Qed.

Lemma classify_t1s_ok_objects (l : list json) (w w1 : world) (b : buckets) :
  classify_t1s l w = (Ok b, w1) -> forallb is_obj (snd b) = true.
Proof.
  intros H. unfold classify_t1s in H.
  destruct (classify_loop_objects l ([], [], []) w) as [Hbad Hgood].
  destruct (forallb is_obj l) eqn:E.
  - destruct (objects_are_dicts l E) as [ds ->].
    fold (classify_t1s (map JObj ds)) in H.
    rewrite classify_t1s_filter in H. injection H as <- _. simpl.
    apply forallb_is_obj_map.
  - rewrite (Hbad eq_refl) in H. discriminate.
Qed.

Lemma settled_quiet {A} (m : M A) :
  footprint [KPrint; KAsk; KGet; KSelect; KConfirm] m -> settled m.
Proof.
  intros Hm w. destruct (Hm w) as (new & E & F). exists new.
  split; [done | by left].
Qed.

Lemma settled_bind {A B} (P : A -> Prop) (m : M A) (k : A -> M B) :
  footprint [KPrint; KAsk; KGet; KSelect; KConfirm] m ->
  (forall w a w1, m w = (Ok a, w1) -> P a) ->
  (forall a, P a -> settled (k a)) ->
  settled (bind m k).
Proof.
  intros Hm HP Hk w. unfold bind.
  destruct (Hm w) as (n1 & E1 & F1).
  destruct (m w) as [[a|e] w1] eqn:Em; simpl in *.
  - destruct (Hk a (HP _ _ _ Em) w1) as (n2 & E2 & [F2|R2]).
    + exists (n2 ++ n1). rewrite E2, E1, app_assoc. split; [done|]. left.
      by apply Forall_app.
    + exists (n2 ++ n1). rewrite E2, E1, app_assoc. split; [done|].
      by right.
  - exists n1. split; [done | by left].
Qed.

(** Once it has started, the remediation phase runs to its summary. *)
Lemma remediation_settled (s : session) (base_url : string)
    (sel : list json) :
  forallb is_obj sel = true ->
  settled
    (bind (print MsgProceeding)
       (fun _ =>
          bind (remediate_selected s base_url sel (O, O, []))
            (fun t =>
               let '(success_count, error_count, backup_files) := t in
               print (MsgSummary success_count error_count
                        (length backup_files))))).
Proof.
  intros Hobj w. destruct (objects_are_dicts sel Hobj) as [ds ->].
  match goal with |- context [w_log (snd (?m w))] =>
    assert (Hfp : footprint [KPrint; KGet; KPut; KFile] m) end.
  { apply fp_bind; [fp|intros _].
    apply fp_bind; [apply fp_remediate_selected|intros [[a b] c]]. fp. }
  destruct (Hfp w) as (new & E & _). exists new. split; [done|]. right.
  unfold bind at 1. unfold print at 1.
  destruct (remediate_selected_total s base_url ds O O []
              (log (EvPrint MsgProceeding) w))
    as (ok & ko & files & n & R & _).
  unfold bind.
  destruct (remediate_selected s base_url (map JObj ds) (O, O, [])
              (log (EvPrint MsgProceeding) w)) as [r w1].
  simpl in R. subst r. simpl. by eexists.
Qed.

Lemma main_settled : settled main.
Proof.
  unfold main.
  apply (settled_bind (fun _ => True));
    [apply (fp_weaken [KAsk]); [intros e He; by_kind e|apply fp_get_config]
    |done|].
  intros [[nsx_manager username] password] _. cbv beta iota zeta.
  unfold create_session.
  apply (settled_bind (fun _ => True)); [fp|done|intros _ _].
  apply (settled_bind (fun _ => True));
    [apply (fp_weaken [KGet]);
       [intros e He; by_kind e|apply fp_list_tier1_gateways]
    |done|].
  intros t1_list _.
  apply (settled_bind (fun b : buckets => forallb is_obj (snd b) = true));
    [apply (fp_weaken []); [intros e He; by_kind e|apply fp_classify_loop]
    |intros w b w1; apply classify_t1s_ok_objects|].
  intros [[a c] nc] Hnc. simpl in Hnc.
  apply (settled_bind (fun _ => True));
    [apply (fp_weaken [KPrint]);
       [intros e He; by_kind e|apply fp_print_report]
    |done|].
  intros _ _.
  destruct nc as [|t0 nc].
  - apply settled_quiet. fp.
  - apply (settled_bind (fun sel => forallb is_obj sel = true)).
    + apply (fp_weaken [KPrint; KSelect]);
        [intros e He; by_kind e|apply fp_select_t1s_to_modify].
    + intros w sel w1 Hsel. apply forallb_forall. intros t Ht.
      apply list_elem_of_In in Ht.
      pose proof (select_subset _ _ _ _ Hsel t Ht) as Hin.
      rewrite forallb_forall in Hnc. apply Hnc.
      by apply list_elem_of_In.
    + intros [|t sel] Hsel; [apply settled_quiet; fp|].
      apply (settled_bind (fun _ => True)); [fp|done|intros _ _].
      apply (settled_bind (fun _ => True)); [fp|done|intros answer _].
      destruct (str_in (lower (strip answer)) YES).
      * by apply remediation_settled.
      * apply settled_quiet. fp.
Qed.

(** X18. A run of [main] that ends with an exception has changed nothing:
    its trace holds no PUT, no directory created and no file written. (So
    once the remediation has started, [main] ends normally, whatever
    happens to the single gateways.) *)
Theorem main_raises_without_change (w : world) (e : exn) :
  fst (main (fresh w)) = Raise e ->
  Forall (fun ev => kind_of ev <> KPut /\ kind_of ev <> KFile)
    (trace (snd (main (fresh w)))).
Proof.
  intros Hraise. apply Forall_forall. intros ev Hev.
  destruct (main_settled (fresh w)) as (new & E & [F|[a Ha]]).
  - simpl in E. rewrite app_nil_r in E.
    unfold trace in Hev. rewrite E, elem_of_rev in Hev.
    rewrite Forall_forall in F. specialize (F _ Hev).
    unfold without_put, of_kinds in F.
    split; intros Hk; rewrite Hk in F; discriminate.
  - congruence.
Qed.


(* ===================================================================== *)
(** ** Further properties: the lister and the audit-only run *)
(* ===================================================================== *)

Lemma list_pages_only_lists (fuel : nat) (s : session) (u : url)
    (cursor : json) (results : list json) (w : world) :
  exists new,
    w_log (snd (list_pages fuel s u cursor results w)) = new ++ w_log w /\
    Forall (fun e => exists ps, e = EvHttp (HttpGet u ps)) new /\
    w_stdin (snd (list_pages fuel s u cursor results w)) = w_stdin w /\
    w_dirs (snd (list_pages fuel s u cursor results w)) = w_dirs w.
Proof.
  revert cursor results w.
  induction fuel as [|fuel IH]; intros cursor results w;
    rewrite list_pages_step;
    (destruct (w_net w) as [|r rs];
       [exists [EvHttp (list_request u cursor)];
        repeat split; repeat constructor; by eexists|]); cbv zeta;
    destruct (page_view r) as [[items next]|];
    try (exists [EvHttp (list_request u cursor)];
         repeat split; repeat constructor; by eexists);
    destruct (truthy next);
    try (exists [EvHttp (list_request u cursor)];
         repeat split; repeat constructor; by eexists).
  match goal with |- context [list_pages fuel s u next ?r ?w1] =>
    destruct (IH next r w1) as (new & E & F & I & D) end.
  exists (new ++ [EvHttp (list_request u cursor)]).
  rewrite E, I, D. simpl. rewrite <- app_assoc. repeat split.
  apply Forall_app. split; [done|]. repeat constructor. by eexists.
Qed.

(** X19. Whatever the manager answers, the lister only asks: everything it
    adds to the trace is a GET of the listing URL, and it reads no operator
    input and creates no directory. *)
Theorem list_tier1_gateways_only_lists (s : session) (base_url : string)
    (w : world) :
  let run := list_tier1_gateways s base_url w in
  exists new,
    trace (snd run) = trace w ++ new /\
    Forall (fun e => exists ps,
              e = EvHttp (HttpGet (UrlTier1s base_url) ps)) new /\
    w_stdin (snd run) = w_stdin w /\
    w_dirs (snd run) = w_dirs w.
Proof.
  intros run. subst run. unfold list_tier1_gateways.
  destruct (list_pages_only_lists (length (w_net w)) s (UrlTier1s base_url)
              JNull [] w) as (new & E & F & I & D).
  exists (rev new). unfold trace. rewrite E, rev_app_distr.
  repeat split; try done.
  apply Forall_forall. intros e He. rewrite elem_of_rev in He.
  rewrite Forall_forall in F. by apply F.
Qed.

Lemma config_with_set (m u p : string) (w : world) :
  m <> "" -> u <> "" -> p <> "" ->
  config_with (Some m) (Some u) (Some p) w = (Ok (m, u, p), w).
Proof.
  intros Nm Nu Np. unfold config_with, unless_set, bind, ret.
  by destruct m, u, p.
Qed.

(** X20. The audit-only run. When the three variables are set, the
    listing ends on a page without cursor, every item listed is an object
    and none of them is an ACTIVE_STANDBY gateway with the flag off, [main]
    ends normally after the report: it printed the connection line, sent
    the listing requests, printed the counts, the all-compliant line and
    the nothing-to-do line, and it asked the operator nothing. *)
Theorem main_nothing_to_do (w : world) (m u p : string)
    (pages : list reply) (views : list (list json * json)) (last : reply)
    (items : list json) (c : json) (rest : list reply) (ds : list dict) :
  w_environ w !! "NSX_MANAGER" = Some m ->
  w_environ w !! "NSX_USERNAME" = Some u ->
  w_environ w !! "NSX_PASSWORD" = Some p ->
  m <> "" -> u <> "" -> p <> "" ->
  w_net w = pages ++ last :: rest ->
  mapM page_view pages = Some views ->
  forallb (fun v => truthy (snd v)) views = true ->
  page_view last = Some (items, c) ->
  truthy c = false ->
  concat (map fst views) ++ items = map JObj ds ->
  List.filter (fun d => is_as d && negb (is_on d)) ds = [] ->
  let run := main w in
  let url := UrlTier1s (String.append "https://" m) in
  fst run = Ok tt /\
  w_stdin (snd run) = w_stdin w /\
  trace (snd run) =
    trace w ++
    EvPrint (MsgConnected m)
    :: map EvHttp
         (list_request url JNull
            :: map (fun v => list_request url (snd v)) views)
    ++ [EvPrint (MsgReport (length ds)
                   (length (List.filter is_as ds))
                   (length (List.filter (fun d => is_as d && is_on d) ds))
                   O);
        EvPrint MsgAllCompliant; EvPrint MsgNothingToDo].
Proof.
  intros Hm Hu Hp Nm Nu Np Hnet Hviews%mapM_Some Htruthy Hlast Hc Hds Hnc
    run url.
  assert (Hcfg : get_config_from_env_or_prompt w = (Ok (m, u, p), w)).
  { rewrite get_config_unfold, Hm, Hu, Hp. by apply config_with_set. }
  assert (Ht : Forall (fun v => truthy (snd v) = true) views).
  { apply Forall_forall. intros v Hv.
    rewrite forallb_forall in Htruthy. apply Htruthy.
    by apply list_elem_of_In. }
  subst run url.
  assert (Hmain : exists w',
    main w = (Ok tt, w') /\
    w_stdin w' = w_stdin w /\
    trace w' =
      trace w ++
      EvPrint (MsgConnected m)
      :: map EvHttp
           (list_request (UrlTier1s (String.append "https://" m)) JNull
              :: map (fun v => list_request
                                 (UrlTier1s (String.append "https://" m))
                                 (snd v)) views)
      ++ [EvPrint (MsgReport (length ds)
                     (length (List.filter is_as ds))
                     (length (List.filter (fun d => is_as d && is_on d) ds))
                     O);
          EvPrint MsgAllCompliant; EvPrint MsgNothingToDo]).
  2: { destruct Hmain as (w' & -> & Hs & Ht'). done. }
  unfold main. rewrite (bind_ok _ _ _ _ _ Hcfg).
  cbv beta iota zeta. unfold create_session.
  unfold bind at 1. unfold print at 1.
  set (w1 := log (EvPrint (MsgConnected m)) w).
  set (sess := Session false (u, p) _).
  assert (Hlist : exists w2,
    list_tier1_gateways sess (String.append "https://" m) w1
      = (Ok (map JObj ds), w2) /\
    w_stdin w2 = w_stdin w /\
    trace w2 = trace w1 ++
      map EvHttp
        (list_request (UrlTier1s (String.append "https://" m)) JNull
           :: map (fun v => list_request
                              (UrlTier1s (String.append "https://" m))
                              (snd v)) views)).
  { unfold list_tier1_gateways.
    destruct (list_pages_run sess (UrlTier1s (String.append "https://" m))
                pages views last rest Hviews Ht
                ltac:(by rewrite Hlast) (length (w_net w1)) JNull [] w1)
      as (R & N & I & T).
    { done. }
    { subst w1. simpl. rewrite Hnet, length_app. lia. }
    destruct (list_pages (length (w_net w1)) sess
                (UrlTier1s (String.append "https://" m)) JNull [] w1)
      as [r w2].
    rewrite Hlast in R. cbn [fst snd app] in R, I, T. rewrite Hds in R.
    subst r. by exists w2. }
  destruct Hlist as (w2 & Hlist & I & T).
  rewrite (bind_ok _ _ _ _ _ Hlist).
  rewrite (bind_ok _ _ _ _ _ (classify_t1s_filter ds w2)).
  cbv beta iota zeta. unfold select_dicts. rewrite Hnc.
  change (map JObj []) with (@nil json).
  unfold bind, print_report, print. cbn [fst snd length].
  rewrite !length_map.
  eexists. split; [reflexivity|]. split; [done|].
  unfold trace in *. cbn [w_log log rev]. rewrite T. subst w1.
  cbn [w_log log rev]. by rewrite <- !app_assoc.
Qed.


End Program.

(* ===================================================================== *)
(** ** The statements at work: sample runs, witnesses, counterexamples *)
(* ===================================================================== *)

(** The selector on sample input. *)
Example select_by_name_any_case :
  fst (select_t1s_to_modify ascii_lower ascii_strip [JObj gw_plain; JObj gw_off]
         (world_typing ["GATEWAY-01"])) = Ok [JObj gw_plain].
Proof. reflexivity. Qed.

Example select_same_gateway_twice :
  fst (select_t1s_to_modify ascii_lower ascii_strip [JObj gw_plain; JObj gw_off]
         (world_typing ["t1-d, gateway-04 ,T1-D"])) = Ok [JObj gw_off].
Proof. reflexivity. Qed.

Example select_unknown_then_exit :
  let run := select_t1s_to_modify ascii_lower ascii_strip [JObj gw_plain; JObj gw_off]
               (world_typing ["nonexistent-name"; "exit"]) in
  fst run = Ok [] /\
  trace (snd run) =
    [EvPrint MsgSelectMenu;
     EvInput PromptSelect (Some "nonexistent-name");
     EvPrint (MsgNotFound ["nonexistent-name"]);
     EvPrint MsgNoValidSelection;
     EvInput PromptSelect (Some "exit")].
Proof. split; reflexivity. Qed.

Example select_name_shadows_id :
  fst (select_t1s_to_modify ascii_lower ascii_strip [JObj gw_edge; JObj gw_alias]
         (world_typing ["edge-1"])) = Ok [JObj gw_alias].
Proof. reflexivity. Qed.

(** The remediation loop on four gateways: the first is updated, the GET
    of the second is refused, the third has no id, the PUT of the fourth is
    refused. One success with its backup path, three errors, and the loop
    went on to the end. *)
Example remediate_selected_mixed :
  let w := set_net [Resp 200 (Some (JObj gw_off)); Resp 200 None;
                    Resp 404 None;
                    Resp 200 (Some (JObj gw_on)); Resp 500 None] world0 in
  let ds := [gw_off; gw_plain; [("display_name", JStr "anon")]; gw_on] in
  outcomes session0 "https://nsx" ds (O, O, []) w =
    [Some (BackupPath "backups" (JStr "t1-d") "20240101_120000");
     None; None; None] /\
  fst (remediate_selected session0 "https://nsx" (map JObj ds) (O, O, []) w) =
    Ok (1%nat, 3%nat,
        [BackupPath "backups" (JStr "t1-d") "20240101_120000"]).
Proof. split; vm_compute; reflexivity. Qed.

(** A gateway with a numeric id reaches the selector: it is classified as
    not compliant and the report prints it; the selector then raises with
    nothing but its menu printed and no line read. *)
Example select_numeric_id_raises :
  classify_t1s [JObj gw_numeric] world0
    = (Ok ([JObj gw_numeric], [], [JObj gw_numeric]), world0) /\
  fst (print_report [JObj gw_numeric] [JObj gw_numeric] []
         [JObj gw_numeric] world0) = Ok tt /\
  select_t1s_to_modify ascii_lower ascii_strip [JObj gw_numeric]
    (world_typing ["all"])
    = (Raise AttributeError,
       log (EvPrint MsgSelectMenu) (world_typing ["all"])).
Proof. repeat split; vm_compute; reflexivity. Qed.

Lemma classify_t1s_compliance_witness :
  exists a c n : list json,
    classify_t1s (map JObj [gw_plain; gw_other; gw_on]) world0
      = (Ok (a, c, n), world0) /\
    (JObj gw_plain ∈ c <->
       exists v, dict_get FLAG gw_plain = Some v /\ truthy v = true) /\
    (JObj gw_plain ∈ n <->
       dict_get FLAG gw_plain = None \/
       exists v, dict_get FLAG gw_plain = Some v /\ truthy v = false) /\
    (dict_get FLAG gw_plain = None -> JObj gw_plain ∈ n /\ JObj gw_plain ∉ c).
Proof.
  apply (classify_t1s_compliance [gw_plain; gw_other; gw_on] world0 gw_plain).
  - apply list_elem_of_here.
  - reflexivity.
Defined.

Lemma update_t1_relocation_round_trip_witness :
  let run := update_t1_relocation session0 "https://nsx" (JStr "t1-d") true
               "backups" world_remediate in
  exists d body,
    JObj gw_off = JObj d /\
    body = dict_set FLAG (JBool true) d /\
    BackupPath "backups" (JStr "t1-d") "20240101_120000" =
      BackupPath "backups" (default (JStr "unknown") (dict_get "id" d))
        (w_now world_remediate (w_ticks world_remediate)) /\
    trace (snd run) =
      trace world_remediate ++
      [EvPrint (MsgGet (JStr "t1-d"));
       EvHttp (HttpGet (UrlTier1 "https://nsx" (JStr "t1-d")) [])]
      ++ (if bool_decide ("backups" ∈ w_dirs world_remediate) then []
          else [EvMkdir "backups"; EvPrint (MsgDirCreated "backups")])
      ++ [EvWrite (BackupPath "backups" (JStr "t1-d") "20240101_120000")
            (JObj d);
          EvPrint (MsgBackupSaved
                     (BackupPath "backups" (JStr "t1-d") "20240101_120000"));
          EvPrint (MsgPut (JStr "t1-d"));
          EvHttp (HttpPut (UrlTier1 "https://nsx" (JStr "t1-d")) (JObj body));
          EvPrint (MsgUpdated (JStr "t1-d") true)] /\
    dict_get FLAG body = Some (JBool true) /\
    (forall k, k <> FLAG -> dict_get k body = dict_get k d) /\
    dict_keys body =
      match dict_get FLAG d with
      | Some _ => dict_keys d
      | None => dict_keys d ++ [FLAG]
      end.
Proof.
  intros run.
  apply (update_t1_relocation_round_trip session0 "https://nsx" (JStr "t1-d")
           true "backups" world_remediate (snd run) 200 (JObj gw_off)
           [Resp 200 None] (200, None)
           (BackupPath "backups" (JStr "t1-d") "20240101_120000")).
  - reflexivity.
  - vm_compute. reflexivity.
Defined.

Lemma list_tier1_gateways_follows_cursor_witness :
  let run := list_tier1_gateways session0 "https://nsx" world_two_pages in
  let u := UrlTier1s "https://nsx" in
  trace (snd run) =
    trace world_two_pages ++
    map EvHttp
      (HttpGet u [] ::
       map (fun v => HttpGet u [("cursor", snd v)])
         [([JObj gw_plain; JObj gw_other; JObj gw_on], JStr "0036-c1")]) /\
  w_net (snd run) = [] /\
  fst run =
    match page_view (Resp 200 (Some page_two)) with
    | Some (items, _) =>
        Ok (concat (map fst [([JObj gw_plain; JObj gw_other; JObj gw_on],
                               JStr "0036-c1")]) ++ items)
    | None => Raise (page_error (Resp 200 (Some page_two)))
    end /\
  (forall st body,
     Resp 200 (Some page_two) = Resp st body -> is_error_status st = true ->
     fst run = Raise (HTTPError st)).
Proof.
  apply (list_tier1_gateways_follows_cursor session0 "https://nsx"
           world_two_pages [Resp 200 (Some page_one)]
           [([JObj gw_plain; JObj gw_other; JObj gw_on], JStr "0036-c1")]
           (Resp 200 (Some page_two)) []).
  - reflexivity.
  - reflexivity.
  - reflexivity.
  - reflexivity.
Defined.

(** C4 as stated does not hold: a reply whose status is outside 2xx but is
    not an error class (here 300) does not make the listing fail. *)
Lemma list_tier1_gateways_non_2xx_counterexample :
  ~ (forall (s : session) (base_url : string) (w : world) (st : Z)
            (body : option json) (rest : list reply),
       w_net w = Resp st body :: rest ->
       ~ (200 <= st < 300) ->
       exists e, fst (list_tier1_gateways s base_url w) = Raise e).
Proof.
  intros H.
  destruct (H session0 "https://nsx" world_status_300 300 (Some page_two) [])
    as [e He]; [reflexivity | lia |].
  vm_compute in He. discriminate He.
Qed.



Lemma select_empty_only_on_cancel_witness :
  (forall (w w' : world) (sel : list json),
     select_t1s_to_modify ascii_lower ascii_strip [JObj gw_plain] w = (Ok sel, w') ->
     exists m line notes earlier,
       fst (build_t1_map ascii_lower [JObj gw_plain] ∅ w) = Ok m /\
       w_log w' =
         notes ++ EvInput PromptSelect (Some line) :: earlier ++ w_log w /\
       Forall (of_kinds [KPrint]) notes /\
       (sel = [] -> str_in (ascii_lower (ascii_strip line)) CANCEL = true) /\
       (str_in (ascii_lower (ascii_strip line)) CANCEL = false ->
        str_in (ascii_lower (ascii_strip line)) ALL = false ->
        sel = fst (pick ascii_lower m (tokens ascii_strip line) [] []) /\ sel <> [] /\
        distinct sel)) /\
  (forall (w : world) (m : gmap string json) (line : string)
          (rest : list string),
     w_stdin w = line :: rest ->
     fst (build_t1_map ascii_lower [JObj gw_plain] ∅ w) = Ok m ->
     str_in (ascii_lower (ascii_strip line)) CANCEL = false ->
     str_in (ascii_lower (ascii_strip line)) ALL = false ->
     fst (pick ascii_lower m (tokens ascii_strip line) [] []) = [] ->
     let run := select_t1s_to_modify ascii_lower ascii_strip [JObj gw_plain] w in
     let run' := select_t1s_to_modify ascii_lower ascii_strip [JObj gw_plain] (set_stdin rest w) in
     fst run = fst run' /\
     w_stdin (snd run) = w_stdin (snd run') /\
     exists notes later,
       trace (snd run) =
         trace w ++
         [EvPrint MsgSelectMenu; EvInput PromptSelect (Some line)] ++
         notes ++
         [EvPrint MsgNoValidSelection; EvInput PromptSelect (head rest)] ++
         later /\
       Forall (of_kinds [KPrint]) notes).
Proof.
  apply (select_empty_only_on_cancel ascii_lower ascii_strip [JObj gw_plain]).
  discriminate.
Defined.





Lemma update_t1_relocation_get_fails_witness :
  let w := set_net [Resp 404 None] world0 in
  let run := update_t1_relocation session0 "https://nsx" (JStr "t1-d") true
               "backups" w in
  (exists e, fst run = Raise e) /\
  trace (snd run) =
    trace w ++
    [EvPrint (MsgGet (JStr "t1-d"));
     EvHttp (HttpGet (UrlTier1 "https://nsx" (JStr "t1-d")) [])]
  /\ w_dirs (snd run) = w_dirs w
  /\ w_ticks (snd run) = w_ticks w.
Proof.
  apply (update_t1_relocation_get_fails session0 "https://nsx" (JStr "t1-d")
           true "backups" (set_net [Resp 404 None] world0)).
  reflexivity.
Defined.


Lemma save_t1_backup_not_an_object_witness :
  let run := save_t1_backup (JArr []) "backups" world0 in
  fst run = Raise AttributeError /\
  trace (snd run) =
    trace world0 ++ (if bool_decide ("backups" ∈ w_dirs world0) then []
                     else [EvMkdir "backups";
                           EvPrint (MsgDirCreated "backups")]) /\
  "backups" ∈ w_dirs (snd run) /\
  w_ticks (snd run) = w_ticks world0.
Proof.
  apply (save_t1_backup_not_an_object (JArr []) "backups" world0).
  reflexivity.
Defined.

Lemma print_report_table_witness :
  let run := print_report [JObj gw_plain; JObj gw_other] [JObj gw_plain] []
               (map JObj [gw_plain]) world0 in
  fst run = Ok tt /\
  trace (snd run) =
    trace world0 ++
    EvPrint (MsgReport (length [JObj gw_plain; JObj gw_other])
               (length [JObj gw_plain]) (length (@nil json))
               (length [gw_plain]))
    :: match [gw_plain] with
       | [] => [EvPrint MsgAllCompliant]
       | _ => EvPrint MsgDetailHeader :: map detail_line [gw_plain]
              ++ [EvPrint (MsgDetailFooter (length [gw_plain]))]
       end.
Proof.
  apply (print_report_table [JObj gw_plain; JObj gw_other] [JObj gw_plain] []
           [gw_plain] world0).
  reflexivity.
Defined.

Lemma print_report_unprintable_witness :
  let nc := map JObj ([gw_plain] ++ [("ha_mode", JStr "ACTIVE_STANDBY")]
                      :: [gw_off]) in
  let run := print_report [] [] [] nc world0 in
  fst run = Raise TypeError /\
  trace (snd run) =
    trace world0 ++
    [EvPrint (MsgReport (length (@nil json)) (length (@nil json))
                (length (@nil json)) (length nc));
     EvPrint MsgDetailHeader] ++ map detail_line [gw_plain].
Proof.
  apply (print_report_unprintable [] [] [] [gw_plain]
           [("ha_mode", JStr "ACTIVE_STANDBY")] [gw_off] world0).
  - reflexivity.
  - reflexivity.
Defined.

Lemma select_returns_bucket_members_witness :
  Forall (fun t => t ∈ [JObj gw_plain; JObj gw_off]) [JObj gw_off].
Proof.
  apply (select_returns_bucket_members ascii_lower ascii_strip [JObj gw_plain; JObj gw_off]
           (world_typing ["nope, T1-D"; "all"])
           (snd (select_t1s_to_modify ascii_lower ascii_strip [JObj gw_plain; JObj gw_off]
                   (world_typing ["nope, T1-D"; "all"])))
           [JObj gw_off]).
  vm_compute. reflexivity.
Defined.

Lemma select_raises_at_end_of_input_witness :
  fst (select_t1s_to_modify ascii_lower ascii_strip [JObj gw_plain]
         (world_typing ["gateway-99"; ""])) = Raise EOFError /\
  w_stdin (snd (select_t1s_to_modify ascii_lower ascii_strip [JObj gw_plain]
                  (world_typing ["gateway-99"; ""]))) = [].
Proof.
  apply (select_raises_at_end_of_input ascii_lower ascii_strip [JObj gw_plain]
           (<["t1-a" := JObj gw_plain]>
              (<["gateway-01" := JObj gw_plain]> ∅))
           (world_typing ["gateway-99"; ""])).
  - reflexivity.
  - vm_compute. reflexivity.
Defined.

Lemma get_config_all_set_witness :
  get_config_from_env_or_prompt ascii_strip
    (set_environ (<["NSX_MANAGER" := " nsx01 "]> env_blank_manager) world0)
  = (Ok (" nsx01 ", "admin", "secret"),
     set_environ (<["NSX_MANAGER" := " nsx01 "]> env_blank_manager) world0).
Proof.
  apply (get_config_all_set ascii_strip
           (set_environ (<["NSX_MANAGER" := " nsx01 "]> env_blank_manager)
              world0) " nsx01 " "admin" "secret").
  - reflexivity.
  - reflexivity.
  - reflexivity.
  - discriminate.
  - discriminate.
  - discriminate.
Defined.

Lemma get_config_prompts_witness :
  let w := set_environ env_blank_manager
             (world_typing ["nsx01.lab"; "all"; "yes"]) in
  let run := get_config_from_env_or_prompt ascii_strip w in
  let blanks :=
    asks (w_environ w !! "NSX_MANAGER") PromptManager ++
    asks (w_environ w !! "NSX_USERNAME") PromptUsername ++
    asks (w_environ w !! "NSX_PASSWORD") PromptPassword in
  (exists cfg, fst run = Ok cfg) /\
  prompts_of (trace (snd run)) = prompts_of (trace w) ++ blanks /\
  w_stdin (snd run) = drop (length blanks) (w_stdin w).
Proof.
  apply (get_config_prompts ascii_strip
           (set_environ env_blank_manager
              (world_typing ["nsx01.lab"; "all"; "yes"]))).
  simpl. lia.
Defined.

Lemma remediate_selected_without_ids_witness :
  let ds : list dict := [[("display_name", JStr "anon")]] in
  let run := remediate_selected session0 "https://nsx" (map JObj ds)
               (O, O, []) world_remediate in
  fst run = Ok (O, length ds, []) /\
  w_net (snd run) = w_net world_remediate /\
  trace (snd run) =
    trace world_remediate ++
    map (fun _ => EvPrint (MsgGenericError JNull KeyError)) ds.
Proof.
  apply (remediate_selected_without_ids session0 "https://nsx"
           [[("display_name", JStr "anon")]] world_remediate).
  reflexivity.
Defined.


Lemma main_backup_needs_confirmation_witness :
  exists j n ans,
    (j < 13)%nat /\
    trace (snd (main ascii_lower ascii_strip (fresh world_full_run))) !! j
      = Some (EvInput (PromptConfirm n) (Some ans)) /\
    (0 < n)%nat /\ str_in (ascii_lower (ascii_strip ans)) YES = true.
Proof.
  apply (main_backup_needs_confirmation ascii_lower ascii_strip world_full_run 13
           (EvMkdir "backups")).
  - vm_compute. reflexivity.
  - reflexivity.
Defined.

Lemma main_raises_without_change_witness :
  Forall (fun ev => kind_of ev <> KPut /\ kind_of ev <> KFile)
    (trace (snd (main ascii_lower ascii_strip (fresh (set_net [Resp 503 None]
                                (set_environ env_blank_manager
                                   (world_typing ["nsx01.lab"]))))))).
Proof.
  apply (main_raises_without_change ascii_lower ascii_strip
           (set_net [Resp 503 None]
              (set_environ env_blank_manager (world_typing ["nsx01.lab"])))
           (HTTPError 503)).
  vm_compute. reflexivity.
Defined.

Lemma main_nothing_to_do_witness :
  let w := set_net [Resp 200 (Some (JObj [("results",
                                           JArr [JObj gw_on; JObj gw_other])]))]
             (set_environ (<["NSX_MANAGER" := "nsx01"]> env_blank_manager)
                world0) in
  let run := main ascii_lower ascii_strip w in
  let url := UrlTier1s (String.append "https://" "nsx01") in
  fst run = Ok tt /\
  w_stdin (snd run) = w_stdin w /\
  trace (snd run) =
    trace w ++
    EvPrint (MsgConnected "nsx01")
    :: map EvHttp
         (list_request url JNull
            :: map (fun v : list json * json => list_request url (snd v)) [])
    ++ [EvPrint (MsgReport (length [gw_on; gw_other])
                   (length (List.filter is_as [gw_on; gw_other]))
                   (length (List.filter (fun d => is_as d && is_on d)
                              [gw_on; gw_other]))
                   O);
        EvPrint MsgAllCompliant; EvPrint MsgNothingToDo].
Proof.
  apply (main_nothing_to_do ascii_lower ascii_strip
           (set_net [Resp 200 (Some (JObj [("results",
                                            JArr [JObj gw_on; JObj gw_other])]))]
              (set_environ (<["NSX_MANAGER" := "nsx01"]> env_blank_manager)
                 world0))
           "nsx01" "admin" "secret" [] []
           (Resp 200 (Some (JObj [("results",
                                   JArr [JObj gw_on; JObj gw_other])])))
           [JObj gw_on; JObj gw_other] JNull [] [gw_on; gw_other]).
  all: try reflexivity; try discriminate.
Defined.
